(** * Algo SDK (Python client): request execution engine and resource call-sites

    A shallow embedding of [sdk/python/algo_sdk/client.py] and
    [sdk/python/algo_sdk/exceptions.py].

    The client delegates the wire work to two third-party libraries,
    [requests] (pinned [>=2.31.0] in [setup.py]) and [urllib3]; the
    [Retry(..., method_whitelist=...)] call in [AlgoSDK.__init__] fixes the
    urllib3 line to 1.x, the only one that accepts that keyword.  The parts
    of those libraries that the client configures and relies on
    ([Retry.is_retry], [Retry.increment], [Retry.is_exhausted],
    [Retry.get_backoff_time], [Retry.sleep], the retry loop of
    [HTTPConnectionPool.urlopen], the exception translation of
    [HTTPAdapter.send] and [Response.json]) are modelled in the modules
    [Urllib3] and [Requests] below, function by function.

    What [requests] does around the connection pool is modelled too:
    the credentials it takes from [netrc] or from the URL, the requests
    it refuses to send, and the redirects it follows, since the client
    leaves [allow_redirects] at its default. What depends on the machine
    or on the text of a URL ([netrc], URL and header validation, the
    same-origin test for redirects, a decoder that fails otherwise than
    with [JSONDecodeError]) comes in through a record [Requests.Env].
    [_request_in] is the engine in any such environment; [_request] is the
    engine in the plain one, where none of this interferes, and is what
    the engine theorems are about.

    Not modelled: cookies, proxies, the [Content-Length] header that
    [requests] computes from the encoded body, and a [Retry-After] header
    that does not parse (a [Response] carries the parsed value). *)

From Stdlib Require Import ZArith Lia Ascii Sorted.
From stdpp Require Import base option list strings gmap pretty.

Set Default Proof Using "Type".
Set Warnings "-register-all".

(** ** Python values *)

Module Py.

(** The JSON-like fragment of Python values that crosses the client. *)
Inductive value : Type :=
| VNone
| VBool (b : bool)
| VInt (n : Z)
| VStr (s : string)
| VList (l : list value)
| VDict (d : list (string * value)).

(** A [dict] keeps insertion order, so it is an association list with at
    most one binding per key. *)
Abbreviation dict := (list (string * value)).

(** Python truthiness, as used by [if name:], [if project_id:], ... *)
Definition truthy (v : value) : bool :=
  match v with
  | VNone => false
  | VBool b => b
  | VInt n => negb (n =? 0)%Z
  | VStr s => negb (String.eqb s "")
  | VList l => match l with [] => false | _ => true end
  | VDict d => match d with [] => false | _ => true end
  end.

(** [d.get(k)] *)
Fixpoint dict_get (k : string) (d : dict) : option value :=
  match d with
  | [] => None
  | (k', v) :: d' => if String.eqb k k' then Some v else dict_get k d'
  end.

(** [d[k] = v]: overwrite in place, or append a new key. *)
Fixpoint dict_set (k : string) (v : value) (d : dict) : dict :=
  match d with
  | [] => [(k, v)]
  | (k', v') :: d' =>
      if String.eqb k k' then (k, v) :: d' else (k', v') :: dict_set k v d'
  end.

(** [d.update(other)] *)
Definition dict_update (d other : dict) : dict :=
  fold_left (fun acc kv => dict_set (fst kv) (snd kv) acc) other d.

(** [k in d] *)
Definition dict_mem (k : string) (d : dict) : bool :=
  match dict_get k d with Some _ => true | None => false end.

(** [str(n)] for an [int]. *)
Definition str_int (n : Z) : string := pretty n.

(** [s.rstrip("/")] *)
Fixpoint rstrip_slash (s : string) : string :=
  match s with
  | EmptyString => EmptyString
  | String c s' =>
      match rstrip_slash s' with
      | EmptyString => if Ascii.eqb c "/"%char then EmptyString else String c EmptyString
      | t => String c t
      end
  end.

End Py.
Import Py.

(** ** The wire *)

(** A response as the connection pool gets it for one attempt.
    [retry_after] is the [Retry-After] header as urllib3 parses it
    ([parse_retry_after]: seconds, never negative), when the response has
    one; servers are taken to send a header that parses. *)
Record Response : Type := mkResponse {
  status_code : Z;
  content : string;
  retry_after : option Z
}.

(** Failures below HTTP: no response was received. *)
Inductive TransportError : Type :=
| ConnectTimeoutError
| NewConnectionError
| ReadTimeoutError
| ProtocolError
| SSLError
| ProxyError.

(** The statuses that [requests] follows when the response has a
    [Location] header ([REDIRECT_STATI]). *)
Inductive RedirectStatus : Type :=
| Moved301
| Found302
| SeeOther303
| TemporaryRedirect307
| PermanentRedirect308.

Definition redirect_code (c : RedirectStatus) : Z :=
  match c with
  | Moved301 => 301
  | Found302 => 302
  | SeeOther303 => 303
  | TemporaryRedirect307 => 307
  | PermanentRedirect308 => 308
  end.

(** What one attempt meets on the wire.
    - [NoResponse]: nothing came back.
    - [Redirect c target]: a response with status [c] and a [Location]
      header that is not empty, that is, one that the session follows
      instead of handing it back; [target] is the absolute URL it goes
      to next (the [Location] resolved against the URL of the request).
    - [Received r]: any other response, a 3xx without [Location]
      included. *)
Inductive wire_outcome : Type :=
| NoResponse (e : TransportError)
| Received (r : Response)
| Redirect (c : RedirectStatus) (target : string).

(** The remote end, as seen from one call: what attempt number [n]
    (counted from 0) meets on the wire. *)
Definition server : Type := nat -> wire_outcome.

Inductive Method : Type := GET | POST | PUT | DELETE.

Definition method_name (m : Method) : string :=
  match m with GET => "GET" | POST => "POST" | PUT => "PUT" | DELETE => "DELETE" end.

(** The request as it leaves the session. [rq_params] is kept apart from
    the URL instead of being percent-encoded into it. *)
Record PreparedRequest : Type := mkRequest {
  rq_method : Method;
  rq_url : string;
  rq_headers : gmap string string;
  rq_params : option dict;
  rq_json : option value
}.

(** Observable events of one call, oldest first. *)
Inductive event : Type :=
| Sent (req : PreparedRequest)
| SleepRetryAfter (seconds : Z)
| SleepBackoff (seconds : Z).

Definition is_sent (e : event) : bool :=
  match e with Sent _ => true | _ => false end.

(** Number of attempts made on the wire. *)
Definition attempts (log : list event) : nat := length (List.filter is_sent log).

Definition sent_requests (log : list event) : list PreparedRequest :=
  omap (fun e => match e with Sent r => Some r | _ => None end) log.

(** The back-off sleeps of a call, in the order they happened. *)
Definition backoff_delays (log : list event) : list Z :=
  omap (fun e => match e with SleepBackoff d => Some d | _ => None end) log.

(** The time slept before each attempt, the first included ([pending] is
    what has been slept since the attempt before). *)
Fixpoint waits (pending : Z) (log : list event) : list Z :=
  match log with
  | [] => []
  | Sent _ :: l => pending :: waits 0 l
  | SleepRetryAfter d :: l => waits (pending + d) l
  | SleepBackoff d :: l => waits (pending + d) l
  end.

(** The delay between attempt [i] and attempt [i + 1], for [i] from 1:
    every sleep between the two, 0 when the retry is immediate. *)
Definition gaps (log : list event) : list Z := tail (waits 0 log).

(** ** urllib3: the [Retry] object built in [AlgoSDK.__init__] *)

Module Urllib3.

(** One entry of [Retry.history]. *)
Record RequestHistory : Type := mkHistory {
  h_method : Method;
  h_url : string;
  h_error : option TransportError;
  h_status : option Z;
  h_redirect_location : option string
}.

(** The fields of [Retry] that the constructor call of the client sets or
    leaves at a default that matters. [connect], [read], [redirect],
    [status] and [other] stay [None] under that call and never count. *)
Record Retry : Type := mkRetry {
  total : Z;
  backoff_factor : Z;
  status_forcelist : list Z;
  method_whitelist : list string;
  raise_on_status : bool;
  respect_retry_after_header : bool;
  history : list RequestHistory
}.

Definition RETRY_AFTER_STATUS_CODES : list Z := [413; 429; 503]%Z.
Definition DEFAULT_BACKOFF_MAX : Z := 120.

Definition mem_Z (x : Z) (l : list Z) : bool := existsb (Z.eqb x) l.
Definition mem_str (x : string) (l : list string) : bool := existsb (String.eqb x) l.

(** [Retry._is_method_retryable] *)
Definition _is_method_retryable (r : Retry) (m : Method) : bool :=
  match method_whitelist r with
  | [] => true
  | wl => mem_str (method_name m) wl
  end.

(** [Retry.is_retry] *)
Definition is_retry (r : Retry) (m : Method) (status : Z) (has_retry_after : bool) : bool :=
  if negb (_is_method_retryable r m) then false
  else if match status_forcelist r with [] => false | fl => mem_Z status fl end then true
  else negb (total r =? 0)%Z
       && respect_retry_after_header r
       && has_retry_after
       && mem_Z status RETRY_AFTER_STATUS_CODES.

(** [Retry.is_exhausted]: the zero and [None] counters are filtered out
    before the minimum is compared with 0. *)
Definition is_exhausted (r : Retry) : bool :=
  match List.filter (fun c => negb (c =? 0)%Z) [total r] with
  | [] => false
  | c :: cs => (fold_left Z.min cs c <? 0)%Z
  end.

Fixpoint takewhile {A} (p : A -> bool) (l : list A) : list A :=
  match l with
  | [] => []
  | x :: l' => if p x then x :: takewhile p l' else []
  end.

Definition consecutive_errors_len (r : Retry) : nat :=
  length (takewhile (fun h => match h_redirect_location h with None => true | Some _ => false end)
                    (rev (history r))).

(** The back-off curve as a function of the number of consecutive errors. *)
Definition backoff_curve (factor : Z) (n : nat) : Z :=
  if (n <=? 1)%nat then 0%Z
  else Z.min DEFAULT_BACKOFF_MAX (factor * 2 ^ (Z.of_nat n - 1))%Z.

(** [Retry.get_backoff_time] *)
Definition get_backoff_time (r : Retry) : Z :=
  backoff_curve (backoff_factor r) (consecutive_errors_len r).

(** [Retry.sleep]: a truthy [Retry-After] wins over the back-off; a
    back-off of 0 or less does not sleep at all. *)
Definition sleep (r : Retry) (response : option Response) : list event :=
  let backoff :=
    let b := get_backoff_time r in
    if (b <=? 0)%Z then [] else [SleepBackoff b] in
  match response with
  | Some resp =>
      if respect_retry_after_header r then
        match retry_after resp with
        | Some d => if (d =? 0)%Z then backoff else [SleepRetryAfter d]
        | None => backoff
        end
      else backoff
  | None => backoff
  end.

(** What [MaxRetryError.reason] holds. *)
Inductive reason : Type :=
| ReasonError (e : TransportError)
| ResponseError (status : option Z).

(** [Retry.increment]: one retry is consumed and the attempt is appended
    to the history; [inr] is a raised [MaxRetryError]. *)
Definition increment (r : Retry) (m : Method) (url : string)
    (response : option Response) (error : option TransportError) : Retry + reason :=
  let total' := (total r - 1)%Z in
  let status :=
    match error, response with
    | None, Some resp => Some (status_code resp)
    | _, _ => None
    end in
  let new_retry :=
    {| total := total';
       backoff_factor := backoff_factor r;
       status_forcelist := status_forcelist r;
       method_whitelist := method_whitelist r;
       raise_on_status := raise_on_status r;
       respect_retry_after_header := respect_retry_after_header r;
       history := history r ++ [mkHistory m url error status None] |} in
  if is_exhausted new_retry then
    inr (match error with Some e => ReasonError e | None => ResponseError status end)
  else inl new_retry.

Inductive urlopen_result : Type :=
| Return (r : Response)
| MaxRetryError (why : reason)
| ReturnRedirect (c : RedirectStatus) (target : string).

(** The retry loop of [HTTPConnectionPool.urlopen], called by the adapter
    with [redirect=False]. [n] numbers the attempt; [fuel] bounds the
    recursion and [None] means it ran out. *)
Fixpoint urlopen_loop (fuel : nat) (srv : server) (req : PreparedRequest)
    (retries : Retry) (n : nat) : option (urlopen_result * list event) :=
  match fuel with
  | O => None
  | S fuel' =>
      let m := rq_method req in
      let url := rq_url req in
      match srv n with
      | NoResponse e =>
          match increment retries m url None (Some e) with
          | inr why => Some (MaxRetryError why, [Sent req])
          | inl retries' =>
              match urlopen_loop fuel' srv req retries' (S n) with
              | Some (res, log) => Some (res, Sent req :: sleep retries' None ++ log)
              | None => None
              end
          end
      | Received response =>
          let has_retry_after :=
            match retry_after response with Some _ => true | None => false end in
          if is_retry retries m (status_code response) has_retry_after then
            match increment retries m url (Some response) None with
            | inr why =>
                if raise_on_status retries then Some (MaxRetryError why, [Sent req])
                else Some (Return response, [Sent req])
            | inl retries' =>
                match urlopen_loop fuel' srv req retries' (S n) with
                | Some (res, log) =>
                    Some (res, Sent req :: sleep retries' (Some response) ++ log)
                | None => None
                end
            end
          else Some (Return response, [Sent req])
      | Redirect c target =>
          (* a 3xx is in neither list of [is_retry], and the adapter has
             switched urllib3's own redirect handling off *)
          Some (ReturnRedirect c target, [Sent req])
      end
  end.

(** Each recursive call has consumed one unit of [total], so this much
    fuel is enough (lemma [loop_total] below). *)
Definition urlopen (srv : server) (req : PreparedRequest) (retries : Retry) (n : nat)
    : option (urlopen_result * list event) :=
  urlopen_loop (S (Z.to_nat (total retries))) srv req retries n.

End Urllib3.

(** ** requests: the session the client keeps *)

Module Requests.

(** The subclasses of [requests.exceptions.RequestException] that a call
    through the session can end in. *)
Inductive RequestException : Type :=
| ConnectTimeout
| RetryError (status : option Z)
| ProxyFailure
| SSLFailure
| ConnectionError (e : TransportError)
| JSONDecodeError
| TooManyRedirects
| MissingSchema
| InvalidSchema
| InvalidURL
| InvalidHeader.

(** What [requests] takes from outside the program, or computes from the
    text of a URL or of a body.
    - [refuses]: the exception that preparing or dispatching this request
      raises before anything is sent, if any ([MissingSchema],
      [InvalidURL], [InvalidSchema] for its URL, [InvalidHeader] for a
      header value).
    - [netrc_auth]: [get_netrc_auth(url)], as the value of the
      [Authorization] header that it leads to.
    - [url_auth]: [get_auth_from_url(url)], the credentials in the URL
      itself, likewise.
    - [should_strip_auth]: [Session.should_strip_auth(old_url, new_url)].
    - [loads_crashes]: whether decoding this text fails with something
      that is not a [JSONDecodeError] (a [ValueError] for an integer
      beyond the digit limit, a [RecursionError]). *)
Record Env : Type := mkEnv {
  refuses : PreparedRequest -> option RequestException;
  netrc_auth : string -> option string;
  url_auth : string -> option string;
  should_strip_auth : string -> string -> bool;
  loads_crashes : string -> bool
}.

(** The environment in which nothing interferes: every request is sent,
    no credentials are found for any URL, no redirect leaves its origin,
    and the decoder fails with [JSONDecodeError] only. *)
Definition plain : Env :=
  {| refuses := fun _ => None;
     netrc_auth := fun _ => None;
     url_auth := fun _ => None;
     should_strip_auth := fun _ _ => false;
     loads_crashes := fun _ => false |}.

(** [requests.utils.default_headers()], the initial [Session.headers]. *)
Definition default_headers : gmap string string :=
  <["User-Agent" := "python-requests/2.31.0"]>
  (<["Accept-Encoding" := "gzip, deflate"]>
  (<["Accept" := "*/*"]>
  (<["Connection" := "keep-alive"]> ∅))).

(** [DEFAULT_REDIRECT_LIMIT], the [max_redirects] of a session. *)
Definition DEFAULT_REDIRECT_LIMIT : nat := 30.

(** A session: its default headers and the [Retry] of the adapter that is
    mounted on both [http://] and [https://]. *)
Record Session : Type := mkSession {
  headers : gmap string string;
  max_retries : Urllib3.Retry
}.

(** The [except MaxRetryError] clause of [HTTPAdapter.send]. *)
Definition translate (why : Urllib3.reason) : RequestException :=
  match why with
  | Urllib3.ReasonError ConnectTimeoutError => ConnectTimeout
  | Urllib3.ResponseError st => RetryError st
  | Urllib3.ReasonError ProxyError => ProxyFailure
  | Urllib3.ReasonError SSLError => SSLFailure
  | Urllib3.ReasonError e => ConnectionError e
  end.

(** How sending one request ends: a response to hand back, a redirect to
    follow, or an exception. *)
Inductive sent : Type :=
| Answered (r : Response)
| Moved (c : RedirectStatus) (target : string)
| Failed (e : RequestException).

(** One request through the adapter ([Session.send] up to the return of
    [HTTPAdapter.send]); the attempts are numbered from [n]. *)
Definition send (env : Env) (s : Session) (srv : server) (req : PreparedRequest) (n : nat)
    : option (sent * list event) :=
  match refuses env req with
  | Some e => Some (Failed e, [])
  | None =>
      match Urllib3.urlopen srv req (max_retries s) n with
      | None => None
      | Some (Urllib3.Return r, log) => Some (Answered r, log)
      | Some (Urllib3.ReturnRedirect c target, log) => Some (Moved c target, log)
      | Some (Urllib3.MaxRetryError why, log) => Some (Failed (translate why), log)
      end
  end.

(** [Session.rebuild_method], on the four verbs of the client. *)
Definition rebuild_method (m : Method) (c : RedirectStatus) : Method :=
  match c, m with
  | SeeOther303, _ => GET
  | Found302, _ => GET
  | Moved301, POST => GET
  | _, _ => m
  end.

(** [Session.rebuild_auth] *)
Definition rebuild_auth (env : Env) (old_url new_url : string) (h : gmap string string)
    : gmap string string :=
  let h :=
    match h !! "Authorization" with
    | Some _ => if should_strip_auth env old_url new_url then delete "Authorization" h else h
    | None => h
    end in
  match netrc_auth env new_url with
  | Some a => <["Authorization" := a]> h
  | None => h
  end.

(** The request that follows a redirect ([Session.resolve_redirects]):
    the query went with the old URL; unless the status is 307 or 308 the
    body is dropped and [Content-Type] with it. *)
Definition redirected (env : Env) (req : PreparedRequest) (c : RedirectStatus)
    (target : string) : PreparedRequest :=
  let keeps_body :=
    match c with
    | TemporaryRedirect307 | PermanentRedirect308 => true
    | _ => false
    end in
  let h :=
    if keeps_body then rq_headers req
    else delete "Transfer-Encoding" (delete "Content-Type"
           (delete "Content-Length" (rq_headers req))) in
  let h := delete "Cookie" h in
  {| rq_method := rebuild_method (rq_method req) c;
     rq_url := target;
     rq_headers := rebuild_auth env (rq_url req) target h;
     rq_params := None;
     rq_json := if keeps_body then rq_json req else None |}.

(** [Session.send] with [allow_redirects] left at [True]: the request goes
    out, and while the answer is a redirect the next request goes out, up
    to [budget] times; one redirect more raises [TooManyRedirects]. Every
    request gets the adapter's [Retry] afresh. *)
Fixpoint session_send (budget : nat) (env : Env) (s : Session) (srv : server)
    (req : PreparedRequest) (n : nat)
    : option ((Response + RequestException) * list event) :=
  match send env s srv req n with
  | None => None
  | Some (Answered r, log) => Some (inl r, log)
  | Some (Failed e, log) => Some (inr e, log)
  | Some (Moved c target, log) =>
      match budget with
      | O => Some (inr TooManyRedirects, log)
      | S budget' =>
          match session_send budget' env s srv (redirected env req c target)
                  (n + attempts log) with
          | Some (res, log') => Some (res, log ++ log')
          | None => None
          end
      end
  end.

(** The keyword arguments that the client passes on to [Session.request]. *)
Record Kwargs : Type := mkKwargs {
  params : option dict;
  json : option value
}.

(** [Session.prepare_request]: the call carries no headers of its own, so
    the prepared request gets the session's; credentials from [netrc], or
    else from the URL, overwrite [Authorization] ([prepare_auth]). *)
Definition prepare_request (env : Env) (s : Session) (m : Method) (url : string)
    (kw : Kwargs) : PreparedRequest :=
  let credentials :=
    match netrc_auth env url with
    | Some a => Some a
    | None => url_auth env url
    end in
  {| rq_method := m;
     rq_url := url;
     rq_headers :=
       match credentials with
       | Some a => <["Authorization" := a]> (headers s)
       | None => headers s
       end;
     rq_params := params kw;
     rq_json := json kw |}.

(** [Session.request] *)
Definition request (env : Env) (s : Session) (m : Method) (url : string) (timeout : Z)
    (kw : Kwargs) (srv : server) : option ((Response + RequestException) * list event) :=
  session_send DEFAULT_REDIRECT_LIMIT env s srv (prepare_request env s m url kw) 0.

(** How [Response.json()] ends: the decoded body, a [JSONDecodeError], or
    an exception of the decoder that is no [RequestException]. *)
Inductive json_outcome : Type :=
| JValue (v : value)
| JRaises (e : RequestException)
| JEscapes.

(** [Response.json()]. The JSON decoder itself is a parameter: [None]
    stands for its [JSONDecodeError]. *)
Definition response_json (env : Env) (loads : string -> option value) (r : Response)
    : json_outcome :=
  if loads_crashes env (content r) then JEscapes
  else
    match loads (content r) with
    | Some v => JValue v
    | None => JRaises JSONDecodeError
    end.

End Requests.

(** ** exceptions.py *)

Inductive exception_class : Type :=
| AlgoAPIError
| AlgoAuthError
| AlgoNotFoundError
| AlgoValidationError
| AlgoRateLimitError.

(** An instance of [AlgoAPIError] or of one of its subclasses;
    [exc_response] is [VNone] when no response was attached. *)
Record AlgoException : Type := mkExc {
  exc_class : exception_class;
  message : string;
  exc_status_code : option Z;
  exc_response : value
}.

(** The closed error taxonomy of the specification, read off an exception:
    the subclass when there is one, and for the base class whether a
    status code was attached. *)
Inductive ApiErrorKind : Type :=
| TransportFailure
| AuthenticationFailed
| NotFound
| ValidationFailed
| RateLimited
| GenericApiError.

Definition kind_of (e : AlgoException) : ApiErrorKind :=
  match exc_class e with
  | AlgoAuthError => AuthenticationFailed
  | AlgoNotFoundError => NotFound
  | AlgoValidationError => ValidationFailed
  | AlgoRateLimitError => RateLimited
  | AlgoAPIError =>
      match exc_status_code e with
      | Some _ => GenericApiError
      | None => TransportFailure
      end
  end.

(** ** client.py: [AlgoSDK] *)

Record AlgoSDK : Type := mkSDK {
  api_key : option string;
  base_url : string;
  timeout : Z;
  session : Requests.Session
}.

(** [AlgoSDK.__init__] *)
Definition __init__ (api_key : option string) (base_url : string) (timeout : Z)
    (max_retries : Z) : AlgoSDK :=
  let retry_strategy :=
    {| Urllib3.total := max_retries;
       Urllib3.backoff_factor := 1;
       Urllib3.status_forcelist := [429; 500; 502; 503; 504]%Z;
       Urllib3.method_whitelist := ["HEAD"; "GET"; "OPTIONS"; "POST"; "PUT"; "DELETE"];
       Urllib3.raise_on_status := true;
       Urllib3.respect_retry_after_header := true;
       Urllib3.history := [] |} in
  let headers := <["Content-Type" := "application/json"]> Requests.default_headers in
  let headers :=
    match api_key with
    | Some k =>
        if negb (String.eqb k "") then <["Authorization" := "Bearer " +:+ k]> headers
        else headers
    | None => headers
    end in
  {| api_key := api_key;
     base_url := rstrip_slash base_url;
     timeout := timeout;
     session := {| Requests.headers := headers; Requests.max_retries := retry_strategy |} |}.

(** The defaults of the constructor. *)
Definition default_base_url : string := "http://localhost:4000/api/v1".
Definition default_timeout : Z := 30.
Definition default_max_retries : Z := 3.

(** How a call of [_request] ends: it returns, it raises an
    [AlgoAPIError], or an exception that the [except] clause does not
    catch leaves it. *)
Inductive result : Type :=
| Returns (v : value)
| Raises (e : AlgoException)
| Escapes.

(** How the [try] block of [_request] ends. *)
Inductive try_result : Type :=
| TReturn (v : value)
| TRaise (e : AlgoException)
| TRequestException (e : Requests.RequestException)
| TEscapes.

Section Client.

(** [json.loads] on the text of a body: [None] when it raises
    [JSONDecodeError], that is, when the text is not JSON. *)
Variable json_loads : string -> option value.
(** [str(e)] for a [RequestException]. *)
Variable str_exc : Requests.RequestException -> string.

(** Evaluate [response.json()] and go on with the value; a
    [JSONDecodeError] leaves the [try] block as a [RequestException], any
    other failure of the decoder as what it is. *)
Definition with_json (env : Requests.Env) (response : Response)
    (k : value -> try_result) : try_result :=
  match Requests.response_json env json_loads response with
  | Requests.JValue v => k v
  | Requests.JRaises e => TRequestException e
  | Requests.JEscapes => TEscapes
  end.

Definition nonempty (s : string) : bool := negb (String.eqb s "").

(** Lines 85-100: the status dispatch on the response that the session
    returned. *)
Definition try_body (env : Requests.Env) (response : Response) : try_result :=
  let sc := status_code response in
  if (sc =? 401)%Z then
    with_json env response
      (fun j => TRaise (mkExc AlgoAuthError "Authentication failed" (Some sc) j))
  else if (sc =? 404)%Z then
    with_json env response
      (fun j => TRaise (mkExc AlgoNotFoundError "Resource not found" (Some sc) j))
  else if (sc =? 400)%Z then
    with_json env response
      (fun j => TRaise (mkExc AlgoValidationError "Validation failed" (Some sc) j))
  else if (sc =? 429)%Z then
    with_json env response
      (fun j => TRaise (mkExc AlgoRateLimitError "Rate limit exceeded" (Some sc) j))
  else if (sc >=? 400)%Z then
    let raise_api j := TRaise (mkExc AlgoAPIError ("API error: " +:+ str_int sc) (Some sc) j) in
    if nonempty (content response) then with_json env response raise_api
    else raise_api VNone
  else
    if nonempty (content response) then with_json env response TReturn
    else TReturn VNone.

(** Lines 102-103: the [except requests.exceptions.RequestException]
    clause. *)
Definition handle (t : try_result) : result :=
  match t with
  | TReturn v => Returns v
  | TRaise e => Raises e
  | TRequestException e =>
      Raises (mkExc AlgoAPIError ("Request failed: " +:+ str_exc e) None VNone)
  | TEscapes => Escapes
  end.

(** [AlgoSDK._request] in the environment [env], with the log of what
    went over the wire. *)
Definition _request_in (env : Requests.Env) (self : AlgoSDK) (method : Method)
    (endpoint : string) (kwargs : Requests.Kwargs) (srv : server)
    : option (result * list event) :=
  let url := base_url self +:+ endpoint in
  match Requests.request env (session self) method url (timeout self) kwargs srv with
  | None => None
  | Some (inl response, log) => Some (handle (try_body env response), log)
  | Some (inr e, log) => Some (handle (TRequestException e), log)
  end.

(** [AlgoSDK._request] in the plain environment. *)
Definition _request (self : AlgoSDK) (method : Method) (endpoint : string)
    (kwargs : Requests.Kwargs) (srv : server) : option (result * list event) :=
  _request_in Requests.plain self method endpoint kwargs srv.

End Client.

(** ** client.py: the resource APIs

    Each method builds the arguments of one [_request] call. What a method
    does with the decoded answer afterwards is modelled further down
    ([resource_call]), with pydantic's validation as a parameter. *)

Record Call : Type := mkCall {
  c_method : Method;
  c_endpoint : string;
  c_kwargs : Requests.Kwargs
}.

Definition no_kwargs : Requests.Kwargs := Requests.mkKwargs None None.
Definition with_json_body (data : dict) : Requests.Kwargs :=
  Requests.mkKwargs None (Some (VDict data)).
Definition with_params (p : dict) : Requests.Kwargs :=
  Requests.mkKwargs (Some p) None.

(** Typed arguments as Python values: [None] for an omitted optional. *)
Definition of_str (o : option string) : value :=
  match o with Some s => VStr s | None => VNone end.
Definition of_int (o : option Z) : value :=
  match o with Some n => VInt n | None => VNone end.
Definition of_dict (o : option dict) : value :=
  match o with Some d => VDict d | None => VNone end.

(** [if x: d[k] = x] *)
Definition set_if (k : string) (x : value) (d : dict) : dict :=
  if truthy x then dict_set k x d else d.

Module UsersAPI.
Definition create (email username password : string) (name : option string) : Call :=
  let data := [("email", VStr email); ("username", VStr username); ("password", VStr password)] in
  let data := set_if "name" (of_str name) data in
  mkCall POST "/users" (with_json_body data).
Definition get (user_id : Z) : Call :=
  mkCall GET ("/users/" +:+ str_int user_id) no_kwargs.
Definition update (user_id : Z) (kwargs : dict) : Call :=
  mkCall PUT ("/users/" +:+ str_int user_id) (with_json_body kwargs).
Definition delete (user_id : Z) : Call :=
  mkCall DELETE ("/users/" +:+ str_int user_id) no_kwargs.
Definition list (page limit : Z) (search : option string) : Call :=
  let params := [("page", VInt page); ("limit", VInt limit)] in
  let params := set_if "search" (of_str search) params in
  mkCall GET "/users" (with_params params).
End UsersAPI.

Module ProjectsAPI.
Definition create (name : string) (description : option string) (kwargs : dict) : Call :=
  let data := [("name", VStr name)] in
  let data := set_if "description" (of_str description) data in
  let data := dict_update data kwargs in
  mkCall POST "/projects" (with_json_body data).
Definition get (project_id : Z) : Call :=
  mkCall GET ("/projects/" +:+ str_int project_id) no_kwargs.
Definition delete (project_id : Z) : Call :=
  mkCall DELETE ("/projects/" +:+ str_int project_id) no_kwargs.
Definition deploy (project_id : Z) : Call :=
  mkCall POST ("/projects/" +:+ str_int project_id +:+ "/deploy") no_kwargs.
Definition clone (project_id : Z) (name : option string) : Call :=
  let data := set_if "name" (of_str name) [] in
  mkCall POST ("/projects/" +:+ str_int project_id +:+ "/clone") (with_json_body data).
Definition list (page limit : Z) (search : option string) : Call :=
  let params := [("page", VInt page); ("limit", VInt limit)] in
  let params := set_if "search" (of_str search) params in
  mkCall GET "/projects" (with_params params).
End ProjectsAPI.

Module FilesAPI.
Definition read (path project_id : string) : Call :=
  mkCall GET ("/files/" +:+ path) (with_params [("projectId", VStr project_id)]).
Definition create (path project_id content : string) (directory : bool) : Call :=
  let data := [("projectId", VStr project_id); ("content", VStr content);
               ("directory", VBool directory)] in
  mkCall POST ("/files/" +:+ path) (with_json_body data).
Definition update (path project_id content : string) : Call :=
  let data := [("projectId", VStr project_id); ("content", VStr content)] in
  mkCall PUT ("/files/" +:+ path) (with_json_body data).
Definition delete (path project_id : string) : Call :=
  mkCall DELETE ("/files/" +:+ path) (with_params [("projectId", VStr project_id)]).
End FilesAPI.

Module DeploymentsAPI.
Definition get (deployment_id : Z) : Call :=
  mkCall GET ("/deployments/" +:+ str_int deployment_id) no_kwargs.
Definition rollback (deployment_id : Z) : Call :=
  mkCall POST ("/deployments/" +:+ str_int deployment_id +:+ "/rollback") no_kwargs.
End DeploymentsAPI.

Module WebhooksAPI.
Definition create (url : string) (events : list string) (project_id : option Z)
    (secret : option string) : Call :=
  let data := [("url", VStr url); ("events", VList (map VStr events))] in
  let data := set_if "project_id" (of_int project_id) data in
  let data := set_if "secret" (of_str secret) data in
  mkCall POST "/webhooks" (with_json_body data).
Definition get (webhook_id : Z) : Call :=
  mkCall GET ("/webhooks/" +:+ str_int webhook_id) no_kwargs.
Definition update (webhook_id : Z) (kwargs : dict) : Call :=
  mkCall PUT ("/webhooks/" +:+ str_int webhook_id) (with_json_body kwargs).
Definition delete (webhook_id : Z) : Call :=
  mkCall DELETE ("/webhooks/" +:+ str_int webhook_id) no_kwargs.
Definition deliveries (webhook_id page limit : Z) : Call :=
  let params := [("page", VInt page); ("limit", VInt limit)] in
  mkCall GET ("/webhooks/" +:+ str_int webhook_id +:+ "/deliveries") (with_params params).
Definition list (page limit : Z) (project_id : option Z) : Call :=
  let params := [("page", VInt page); ("limit", VInt limit)] in
  let params := set_if "project_id" (of_int project_id) params in
  mkCall GET "/webhooks" (with_params params).
End WebhooksAPI.

Module ResourcesAPI.
Definition usage (kwargs : dict) : Call :=
  mkCall GET "/resources/usage" (with_params kwargs).
Definition limits : Call :=
  mkCall GET "/resources/limits" no_kwargs.
End ResourcesAPI.

Module BillingAPI.
Definition get (start_date end_date : option string) : Call :=
  let params := set_if "start_date" (of_str start_date) [] in
  let params := set_if "end_date" (of_str end_date) params in
  mkCall GET "/billing" (with_params params).
End BillingAPI.

Module AIAgentsAPI.
Definition invoke (agent_id : string) (input_data : value) (context parameters : option dict)
    : Call :=
  let data := [("input", input_data)] in
  let data := set_if "context" (of_dict context) data in
  let data := set_if "parameters" (of_dict parameters) data in
  mkCall POST ("/ai/agents/" +:+ agent_id +:+ "/invoke") (with_json_body data).
Definition list (page limit : Z) (category : option string) : Call :=
  let params := [("page", VInt page); ("limit", VInt limit)] in
  let params := set_if "category" (of_str category) params in
  mkCall GET "/ai/agents" (with_params params).
End AIAgentsAPI.

Module AIModelsAPI.
Definition predict (model_id : string) (input_data : value) (parameters : option dict) : Call :=
  let data := [("input", input_data)] in
  let data := set_if "parameters" (of_dict parameters) data in
  mkCall POST ("/ai/models/" +:+ model_id +:+ "/predict") (with_json_body data).
Definition list (page limit : Z) (model_type : option string) : Call :=
  let params := [("page", VInt page); ("limit", VInt limit)] in
  let params := set_if "type" (of_str model_type) params in
  mkCall GET "/ai/models" (with_params params).
End AIModelsAPI.

(** Every public resource operation with its arguments. *)
Inductive Op : Type :=
| users_create (email username password : string) (name : option string)
| users_get (user_id : Z)
| users_update (user_id : Z) (kwargs : dict)
| users_delete (user_id : Z)
| users_list (page limit : Z) (search : option string)
| projects_create (name : string) (description : option string) (kwargs : dict)
| projects_get (project_id : Z)
| projects_list (page limit : Z) (search : option string)
| projects_delete (project_id : Z)
| projects_deploy (project_id : Z)
| projects_clone (project_id : Z) (name : option string)
| files_read (path project_id : string)
| files_create (path project_id content : string) (directory : bool)
| files_update (path project_id content : string)
| files_delete (path project_id : string)
| deployments_get (deployment_id : Z)
| deployments_rollback (deployment_id : Z)
| webhooks_create (url : string) (events : list string) (project_id : option Z)
    (secret : option string)
| webhooks_get (webhook_id : Z)
| webhooks_list (page limit : Z) (project_id : option Z)
| webhooks_update (webhook_id : Z) (kwargs : dict)
| webhooks_delete (webhook_id : Z)
| webhooks_deliveries (webhook_id page limit : Z)
| resources_usage (kwargs : dict)
| resources_limits
| billing_get (start_date end_date : option string)
| ai_agents_list (page limit : Z) (category : option string)
| ai_agents_invoke (agent_id : string) (input_data : value) (context parameters : option dict)
| ai_models_list (page limit : Z) (model_type : option string)
| ai_models_predict (model_id : string) (input_data : value) (parameters : option dict).

(** The [_request] call that an operation makes. *)
Definition call_of (op : Op) : Call :=
  match op with
  | users_create e u p n => UsersAPI.create e u p n
  | users_get i => UsersAPI.get i
  | users_update i kw => UsersAPI.update i kw
  | users_delete i => UsersAPI.delete i
  | users_list p l s => UsersAPI.list p l s
  | projects_create n d kw => ProjectsAPI.create n d kw
  | projects_get i => ProjectsAPI.get i
  | projects_list p l s => ProjectsAPI.list p l s
  | projects_delete i => ProjectsAPI.delete i
  | projects_deploy i => ProjectsAPI.deploy i
  | projects_clone i n => ProjectsAPI.clone i n
  | files_read p i => FilesAPI.read p i
  | files_create p i c d => FilesAPI.create p i c d
  | files_update p i c => FilesAPI.update p i c
  | files_delete p i => FilesAPI.delete p i
  | deployments_get i => DeploymentsAPI.get i
  | deployments_rollback i => DeploymentsAPI.rollback i
  | webhooks_create u ev i s => WebhooksAPI.create u ev i s
  | webhooks_get i => WebhooksAPI.get i
  | webhooks_list p l i => WebhooksAPI.list p l i
  | webhooks_update i kw => WebhooksAPI.update i kw
  | webhooks_delete i => WebhooksAPI.delete i
  | webhooks_deliveries i p l => WebhooksAPI.deliveries i p l
  | resources_usage kw => ResourcesAPI.usage kw
  | resources_limits => ResourcesAPI.limits
  | billing_get s e => BillingAPI.get s e
  | ai_agents_list p l c => AIAgentsAPI.list p l c
  | ai_agents_invoke i x c p => AIAgentsAPI.invoke i x c p
  | ai_models_list p l t => AIModelsAPI.list p l t
  | ai_models_predict i x p => AIModelsAPI.predict i x p
  end.

(** The optional parameters of an operation (those declared
    [Optional[...] = None]): the key each one is sent under, and the
    argument that was passed for it. *)
Definition optional_args (op : Op) : list (string * value) :=
  match op with
  | users_create _ _ _ n => [("name", of_str n)]
  | users_list _ _ s => [("search", of_str s)]
  | projects_create _ d _ => [("description", of_str d)]
  | projects_list _ _ s => [("search", of_str s)]
  | projects_clone _ n => [("name", of_str n)]
  | webhooks_create _ _ i s => [("project_id", of_int i); ("secret", of_str s)]
  | webhooks_list _ _ i => [("project_id", of_int i)]
  | billing_get s e => [("start_date", of_str s); ("end_date", of_str e)]
  | ai_agents_list _ _ c => [("category", of_str c)]
  | ai_agents_invoke _ _ c p => [("context", of_dict c); ("parameters", of_dict p)]
  | ai_models_list _ _ t => [("type", of_str t)]
  | ai_models_predict _ _ p => [("parameters", of_dict p)]
  | _ => []
  end.

(** The open-ended [**kwargs] of an operation, when it has them. *)
Definition open_kwargs (op : Op) : dict :=
  match op with
  | users_update _ kw | projects_create _ _ kw | webhooks_update _ kw
  | resources_usage kw => kw
  | _ => []
  end.

(** The names of the declared parameters of an operation. A Python call
    binds a keyword to the declared parameter of that name, so [**kwargs]
    never holds one of them. *)
Definition declared_params (op : Op) : list string :=
  match op with
  | users_update _ _ => ["user_id"]
  | projects_create _ _ _ => ["name"; "description"]
  | webhooks_update _ _ => ["webhook_id"]
  | _ => []
  end.

Definition kwargs_bound (op : Op) : Prop :=
  forall k, In k (declared_params op) -> dict_get k (open_kwargs op) = None.

(** The body or the query of a call, whichever it has. *)
Definition payload (c : Call) : dict :=
  match Requests.json (c_kwargs c), Requests.params (c_kwargs c) with
  | Some (VDict d), _ => d
  | _, Some p => p
  | _, _ => []
  end.

Section Perform.
Variable json_loads : string -> option value.
Variable str_exc : Requests.RequestException -> string.

(** A resource operation up to the return of [_request], in the
    environment [env]. *)
Definition perform_in (env : Requests.Env) (self : AlgoSDK) (op : Op) (srv : server)
    : option (result * list event) :=
  let c := call_of op in
  _request_in json_loads str_exc env self (c_method c) (c_endpoint c) (c_kwargs c) srv.

(** A resource operation up to the return of [_request]. *)
Definition perform (self : AlgoSDK) (op : Op) (srv : server) : option (result * list event) :=
  let c := call_of op in
  _request json_loads str_exc self (c_method c) (c_endpoint c) (c_kwargs c) srv.
End Perform.

(** ** The configured retry object, and what the wire can do to it *)

Module Configured.
Import Urllib3.

(** The [Retry] of a client after some retries: [t] retries left and
    history [h]. *)
Definition client_retry (t : Z) (h : list RequestHistory) : Retry :=
  {| total := t;
     backoff_factor := 1;
     status_forcelist := [429; 500; 502; 503; 504]%Z;
     method_whitelist := ["HEAD"; "GET"; "OPTIONS"; "POST"; "PUT"; "DELETE"];
     raise_on_status := true;
     respect_retry_after_header := true;
     history := h |}.

(** Outcomes that are retried whatever the counters say: no response at
    all, or a status of the force list. *)
Definition forced (o : wire_outcome) : bool :=
  match o with
  | NoResponse _ => true
  | Received r => mem_Z (status_code r) [429; 500; 502; 503; 504]%Z
  | Redirect _ _ => false
  end.

(** Responses that are handed back at once whatever the counters say. *)
Definition unretried (r : Response) : bool :=
  negb (mem_Z (status_code r) [429; 500; 502; 503; 504]%Z)
  && negb (match retry_after r with Some _ => true | None => false end
           && mem_Z (status_code r) RETRY_AFTER_STATUS_CODES).

(** The reason that [MaxRetryError] carries when this outcome used up the
    last retry. *)
Definition reason_of (o : wire_outcome) : reason :=
  match o with
  | NoResponse e => ReasonError e
  | Received r => ResponseError (Some (status_code r))
  | Redirect _ _ => ResponseError None
  end.

Definition entry_of (m : Method) (url : string) (o : wire_outcome) : RequestHistory :=
  match o with
  | NoResponse e => mkHistory m url (Some e) None None
  | Received r => mkHistory m url None (Some (status_code r)) None
  | Redirect _ _ => mkHistory m url None None None
  end.

(** No entry of the history is a redirect: the adapter calls [urlopen]
    with [redirect=False]. *)
Definition no_redirect (h : list RequestHistory) : Prop :=
  Forall (fun e => h_redirect_location e = None) h.

End Configured.

(** The request that [_request] hands to the session. *)
Definition outgoing (self : AlgoSDK) (m : Method) (endpoint : string)
    (kw : Requests.Kwargs) : PreparedRequest :=
  {| rq_method := m;
     rq_url := base_url self +:+ endpoint;
     rq_headers := Requests.headers (session self);
     rq_params := Requests.params kw;
     rq_json := Requests.json kw |}.

(** The body of the rate-limit scenario: [{"error": "rate limited"}]. *)
Definition dq : string := String (Ascii.ascii_of_nat 34) EmptyString.
Definition rate_limited_body : string :=
  "{" +:+ dq +:+ "error" +:+ dq +:+ ": " +:+ dq +:+ "rate limited" +:+ dq +:+ "}".

(** ** Sample decoders and servers *)

Module Sample.

(** A decoder that knows one document, the empty object, and rejects
    everything else, the empty text included. *)
Definition loads (s : string) : option value :=
  if String.eqb s "{}" then Some (VDict []) else None.

Definition str_exc (e : Requests.RequestException) : string :=
  match e with
  | Requests.ConnectTimeout => "connect timeout"
  | Requests.RetryError _ => "too many error responses"
  | Requests.ProxyFailure => "proxy error"
  | Requests.SSLFailure => "ssl error"
  | Requests.ConnectionError _ => "connection error"
  | Requests.JSONDecodeError => "Expecting value: line 1 column 1 (char 0)"
  | Requests.TooManyRedirects => "Exceeded 30 redirects."
  | Requests.MissingSchema => "Invalid URL: No scheme supplied."
  | Requests.InvalidSchema => "No connection adapters were found"
  | Requests.InvalidURL => "Invalid URL"
  | Requests.InvalidHeader => "Invalid header value"
  end.

(** Answers [st] with body [body] on every attempt. *)
Definition always (st : Z) (body : string) : server :=
  fun _ => Received (mkResponse st body None).

(** Answers 500 on the first [k] attempts and then [r]. *)
Definition fails_then (k : nat) (r : Response) : server :=
  fun n => if n <? k then Received (mkResponse 500 "" None) else Received r.

(** Answers the first attempt with a redirect to [target] and every later
    one with [r]. *)
Definition redirects_then (c : RedirectStatus) (target : string) (r : Response) : server :=
  fun n => match n with O => Redirect c target | S _ => Received r end.

(** Answers 503 on every attempt, the third time with [Retry-After: 1]. *)
Definition busy_with_one_hint : server :=
  fun n => Received (mkResponse 503 "" (if (n =? 2)%nat then Some 1%Z else None)).


End Sample.

(** What a run looks like from outside: result, attempts, back-off sleeps. *)
Definition summary (run : option (result * list event)) : option (result * nat * list Z) :=
  match run with
  | Some (res, log) => Some (res, attempts log, backoff_delays log)
  | None => None
  end.

(** ** client.py: what a resource method does with the answer

    After [_request] has returned, a method either drops the answer
    ([delete]), hands back [response["data"]], or feeds it to a pydantic
    model. Nothing in these methods catches an exception. *)

(** The pydantic models of [models.py]. *)
Inductive Model : Type := User | Project | Deployment | Webhook | AIAgent | MLModel.

(** Exceptions outside the [AlgoAPIError] hierarchy that the return path
    of a method can raise. *)
Inductive PyError : Type :=
| KeyError (key : string)
| TypeError
| ValidationError (m : Model)
| DecoderError.

(** What a method returns: a plain value ([None] included), a model
    instance given by its validated fields, or the dict of a list
    method. *)
Inductive returned : Type :=
| RValue (v : value)
| RModel (m : Model) (fields : dict)
| RListing (key : string) (m : Model) (items : list dict) (pagination : value).

Inductive op_outcome : Type :=
| OpReturns (r : returned)
| OpRaises (e : AlgoException)
| OpFails (e : PyError).

(** The shape of the [return] statement of a method. *)
Inductive returns : Type :=
| ReturnsModel (m : Model)
| ReturnsNone
| ReturnsData
| ReturnsListing (key : string) (m : Model).

Definition returns_of (op : Op) : returns :=
  match op with
  | users_create _ _ _ _ | users_get _ | users_update _ _ => ReturnsModel User
  | users_delete _ => ReturnsNone
  | users_list _ _ _ => ReturnsListing "users" User
  | projects_create _ _ _ | projects_get _ | projects_clone _ _ => ReturnsModel Project
  | projects_list _ _ _ => ReturnsListing "projects" Project
  | projects_delete _ => ReturnsNone
  | projects_deploy _ => ReturnsModel Deployment
  | files_read _ _ | files_create _ _ _ _ | files_update _ _ _ => ReturnsData
  | files_delete _ _ => ReturnsNone
  | deployments_get _ | deployments_rollback _ => ReturnsModel Deployment
  | webhooks_create _ _ _ _ | webhooks_get _ | webhooks_update _ _ => ReturnsModel Webhook
  | webhooks_list _ _ _ => ReturnsListing "webhooks" Webhook
  | webhooks_delete _ => ReturnsNone
  | webhooks_deliveries _ _ _ => ReturnsData
  | resources_usage _ | resources_limits => ReturnsData
  | billing_get _ _ => ReturnsData
  | ai_agents_list _ _ _ => ReturnsListing "agents" AIAgent
  | ai_agents_invoke _ _ _ _ => ReturnsData
  | ai_models_list _ _ _ => ReturnsListing "models" MLModel
  | ai_models_predict _ _ _ => ReturnsData
  end.

(** [v[k]] for a string key [k]: only a dict can be subscripted by a
    string, and only at a key it has. *)
Definition subscript (v : value) (k : string) : value + PyError :=
  match v with
  | VDict d =>
      match dict_get k d with
      | Some x => inl x
      | None => inr (KeyError k)
      end
  | _ => inr TypeError
  end.

(** [for u in v]: a list yields its items, a dict its keys, a string its
    characters; nothing else is iterable. *)
Definition iterate (v : value) : list value + PyError :=
  match v with
  | VList l => inl l
  | VDict d => inl (map (fun kv => VStr (fst kv)) d)
  | VStr s => inl (map (fun c => VStr (String c EmptyString)) (String.list_ascii_of_string s))
  | _ => inr TypeError
  end.

Definition and_then {A B : Type} (x : A + PyError) (f : A -> B + PyError) : B + PyError :=
  match x with
  | inl a => f a
  | inr e => inr e
  end.

Section Methods.

(** pydantic's validation of the keyword arguments of a model: the fields
    of the instance, or [None] for a [ValidationError]. *)
Variable validate : Model -> dict -> option dict.
Variable json_loads : string -> option value.
Variable str_exc : Requests.RequestException -> string.

(** The call of a model [M] on [**v]: the argument of [**] must be a
    mapping. *)
Definition construct (m : Model) (v : value) : dict + PyError :=
  match v with
  | VDict d =>
      match validate m d with
      | Some fields => inl fields
      | None => inr (ValidationError m)
      end
  | _ => inr TypeError
  end.

(** The list comprehension over [items], one model call per item, left
    to right. *)
Fixpoint construct_all (m : Model) (items : list value) : list dict + PyError :=
  match items with
  | [] => inl []
  | u :: rest =>
      and_then (construct m u) (fun fields =>
      and_then (construct_all m rest) (fun more => inl (fields :: more)))
  end.

(** The [return] statement of a method on the value that [_request]
    returned. *)
Definition decode (k : returns) (response : value) : returned + PyError :=
  match k with
  | ReturnsNone => inl (RValue VNone)
  | ReturnsData =>
      and_then (subscript response "data") (fun data => inl (RValue data))
  | ReturnsModel m =>
      and_then (subscript response "data") (fun data =>
      and_then (construct m data) (fun fields => inl (RModel m fields)))
  | ReturnsListing key m =>
      and_then (subscript response "data") (fun data =>
      and_then (iterate data) (fun us =>
      and_then (construct_all m us) (fun items =>
      and_then (subscript response "pagination") (fun pagination =>
      inl (RListing key m items pagination)))))
  end.

(** What a method makes of the way [_request] ended. *)
Definition finish (op : Op) (run : option (result * list event))
    : option (op_outcome * list event) :=
  match run with
  | None => None
  | Some (Raises e, log) => Some (OpRaises e, log)
  | Some (Escapes, log) => Some (OpFails DecoderError, log)
  | Some (Returns v, log) =>
      Some (match decode (returns_of op) v with
            | inl r => OpReturns r
            | inr e => OpFails e
            end, log)
  end.

(** A resource method from call to return, in the environment [env]. *)
Definition resource_call_in (env : Requests.Env) (self : AlgoSDK) (op : Op) (srv : server)
    : option (op_outcome * list event) :=
  finish op (perform_in json_loads str_exc env self op srv).

(** A resource method from call to return. *)
Definition resource_call (self : AlgoSDK) (op : Op) (srv : server)
    : option (op_outcome * list event) :=
  finish op (perform json_loads str_exc self op srv).

End Methods.

(** ** More vocabulary for runs *)

(** Whether the configured retry object, with [t] retries left, retries
    after this outcome. *)
Definition will_retry (t : Z) (o : wire_outcome) : bool :=
  match o with
  | NoResponse _ => true
  | Received r =>
      Urllib3.mem_Z (status_code r) [429; 500; 502; 503; 504]%Z
      || (negb (t =? 0)%Z
          && match retry_after r with Some _ => true | None => false end
          && Urllib3.mem_Z (status_code r) Urllib3.RETRY_AFTER_STATUS_CODES)
  | Redirect _ _ => false
  end.

Definition response_of (o : wire_outcome) : option Response :=
  match o with
  | Received r => Some r
  | NoResponse _ => None
  | Redirect _ _ => None
  end.

Definition is_redirect (o : wire_outcome) : bool :=
  match o with
  | Redirect _ _ => true
  | _ => false
  end.

(** The request that [_request] hands to the session in the environment
    [env]. *)
Definition outgoing_in (env : Requests.Env) (self : AlgoSDK) (m : Method)
    (endpoint : string) (kw : Requests.Kwargs) : PreparedRequest :=
  Requests.prepare_request env (session self) m (base_url self +:+ endpoint) kw.

(** The last character of a string, if it has one. *)
Fixpoint last_char (s : string) : option ascii :=
  match s with
  | EmptyString => None
  | String c EmptyString => Some c
  | String _ s' => last_char s'
  end.

(** [n] slashes. *)
Fixpoint slashes (n : nat) : string :=
  match n with
  | O => EmptyString
  | S n' => String "/"%char (slashes n')
  end.

(** The sleeps of a call that a [Retry-After] header dictated. *)
Definition retry_after_delays (log : list event) : list Z :=
  omap (fun e => match e with SleepRetryAfter d => Some d | _ => None end) log.

(** The [Retry-After] that attempt [i] was answered with, 0 if none. *)
Definition asked_delay (srv : server) (i : nat) : Z :=
  match srv i with
  | Received r => match retry_after r with Some d => d | None => 0%Z end
  | NoResponse _ => 0%Z
  | Redirect _ _ => 0%Z
  end.

(** What the retry loop waits after attempt [i] (from 0) of a call that
    met no redirect, when that attempt is retried: the [Retry-After] of the
    response if it has one that is not 0, the back-off of the
    [i + 1] failures so far otherwise. *)
Definition delay_after (srv : server) (i : nat) : Z :=
  if (asked_delay srv i =? 0)%Z then Urllib3.backoff_curve 1 (S i) else asked_delay srv i.

(** What is known of one request through the adapter of a client with
    [max_retries = mr], sent as attempt number [n]: the attempts are
    bounded, they all send the same request, the back-off sleeps are
    bounded and fewer than the retries, and a response or redirect that
    comes out is what the last attempt met. *)
Definition send_facts (mr : Z) (srv : server) (req : PreparedRequest) (n : nat)
    (out : Requests.sent) (log : list event) : Prop :=
  attempts log <= S (Z.to_nat mr)
  /\ sent_requests log = replicate (attempts log) req
  /\ Forall (fun d => 2 <= d <= 120)%Z (backoff_delays log)
  /\ length (backoff_delays log) <= attempts log - 2
  /\ match out with
     | Requests.Answered r =>
         1 <= attempts log
         /\ srv (n + (attempts log - 1)) = Received r
         /\ Urllib3.mem_Z (status_code r) [429; 500; 502; 503; 504]%Z = false
     | Requests.Moved c target =>
         1 <= attempts log /\ srv (n + (attempts log - 1)) = Redirect c target
     | Requests.Failed _ => True
     end.

(** The same for a request with the redirects that follow it, at most
    [budget] of them. *)
Definition session_facts (mr : Z) (srv : server) (budget : nat) (n : nat)
    (res : Response + Requests.RequestException) (log : list event) : Prop :=
  attempts log <= S budget * S (Z.to_nat mr)
  /\ Forall (fun d => 2 <= d <= 120)%Z (backoff_delays log)
  /\ length (backoff_delays log) <= attempts log - 2
  /\ match res with
     | inl r =>
         1 <= attempts log
         /\ srv (n + (attempts log - 1)) = Received r
         /\ Urllib3.mem_Z (status_code r) [429; 500; 502; 503; 504]%Z = false
     | inr _ => True
     end.

(** ** Sample envelopes and a sample validator *)

Module SampleData.

(** [{"data": {"id": 1}}] *)
Definition envelope_text : string :=
  "{" +:+ dq +:+ "data" +:+ dq +:+ ": {" +:+ dq +:+ "id" +:+ dq +:+ ": 1}}".

(** [{"data": [{"id": 1}], "pagination": {"page": 1}}] *)
Definition listing_text : string :=
  "{" +:+ dq +:+ "data" +:+ dq +:+ ": [{" +:+ dq +:+ "id" +:+ dq +:+ ": 1}], "
  +:+ dq +:+ "pagination" +:+ dq +:+ ": {" +:+ dq +:+ "page" +:+ dq +:+ ": 1}}".

Definition envelope : dict := [("data", VDict [("id", VInt 1)])].
Definition listing : dict :=
  [("data", VList [VDict [("id", VInt 1)]]); ("pagination", VDict [("page", VInt 1)])].

(** A decoder that knows these two documents and the empty object. *)
Definition loads (s : string) : option value :=
  if String.eqb s envelope_text then Some (VDict envelope)
  else if String.eqb s listing_text then Some (VDict listing)
  else if String.eqb s "{}" then Some (VDict [])
  else None.

(** A validator that asks for an ["id"] and keeps the fields as they
    are. *)
Definition validate (m : Model) (d : dict) : option dict :=
  if dict_mem "id" d then Some d else None.

End SampleData.

(** * Properties *)

(** ** The log *)

Lemma attempts_app (l1 l2 : list event) : attempts (l1 ++ l2) = attempts l1 + attempts l2.
Proof. unfold attempts. by rewrite List.filter_app, length_app. Qed.

Lemma attempts_sleep (r : Urllib3.Retry) (o : option Response) :
  attempts (Urllib3.sleep r o) = 0.
Proof.
  unfold Urllib3.sleep.
  repeat (match goal with |- context [match ?x with _ => _ end] => destruct x end);
    reflexivity.
Qed.

Lemma attempts_step (req : PreparedRequest) (r : Urllib3.Retry) (o : option Response)
    (log : list event) :
  attempts (Sent req :: Urllib3.sleep r o ++ log) = S (attempts log).
Proof.
  change (Sent req :: Urllib3.sleep r o ++ log) with ([Sent req] ++ Urllib3.sleep r o ++ log).
  rewrite !attempts_app, attempts_sleep. reflexivity.
Qed.

Lemma sent_requests_sleep (r : Urllib3.Retry) (o : option Response) :
  sent_requests (Urllib3.sleep r o) = [].
Proof.
  unfold Urllib3.sleep.
  repeat (match goal with |- context [match ?x with _ => _ end] => destruct x end);
    reflexivity.
Qed.

Lemma sent_requests_step (req : PreparedRequest) (r : Urllib3.Retry) (o : option Response)
    (log : list event) :
  sent_requests (Sent req :: Urllib3.sleep r o ++ log) = req :: sent_requests log.
Proof.
  unfold sent_requests. cbn [omap list_omap]. f_equal.
  rewrite omap_app. fold (sent_requests (Urllib3.sleep r o)).
  by rewrite sent_requests_sleep.
Qed.

(** ** The retry object of the client *)

Module RetryFacts.
Import Urllib3.
Export Configured.

Lemma is_exhausted_spec (r : Retry) : is_exhausted r = (total r <? 0)%Z.
Proof.
  unfold is_exhausted. cbn [List.filter].
  destruct (Z.eqb_spec (total r) 0) as [->|Hne]; cbn; reflexivity.
Qed.

Lemma whitelist_ok (t : Z) (h : list RequestHistory) (m : Method) :
  _is_method_retryable (client_retry t h) m = true.
Proof. by destruct m. Qed.

Lemma is_retry_client (t : Z) (h : list RequestHistory) (m : Method) (st : Z) (ra : bool) :
  is_retry (client_retry t h) m st ra =
    mem_Z st [429; 500; 502; 503; 504]%Z
    || (negb (t =? 0)%Z && ra && mem_Z st RETRY_AFTER_STATUS_CODES).
Proof.
  unfold is_retry. rewrite whitelist_ok. cbn [negb client_retry status_forcelist total
    respect_retry_after_header].
  destruct (mem_Z st [429; 500; 502; 503; 504]%Z); cbn; [done|].
  by rewrite andb_true_r.
Qed.

Lemma increment_client (t : Z) (h : list RequestHistory) (m : Method) (url : string)
    (o : wire_outcome) :
  increment (client_retry t h) m url
    (match o with Received r => Some r | _ => None end)
    (match o with NoResponse e => Some e | _ => None end)
  = if (t - 1 <? 0)%Z then inr (reason_of o)
    else inl (client_retry (t - 1) (h ++ [entry_of m url o])).
Proof.
  unfold increment. rewrite is_exhausted_spec. cbn [total client_retry].
  destruct o; cbn; destruct (t - 1 <? 0)%Z; reflexivity.
Qed.

(** One unfolding of the loop on the client's retry object. *)
Lemma urlopen_loop_client (fuel : nat) (srv : server) (req : PreparedRequest)
    (t : Z) (h : list RequestHistory) (n : nat) :
  urlopen_loop (S fuel) srv req (client_retry t h) n =
    let o := srv n in
    let again :=
      if (t - 1 <? 0)%Z then Some (MaxRetryError (reason_of o), [Sent req])
      else
        let r' := client_retry (t - 1) (h ++ [entry_of (rq_method req) (rq_url req) o]) in
        match urlopen_loop fuel srv req r' (S n) with
        | Some (res, log) =>
            Some (res, Sent req ::
                   sleep r' (match o with Received r => Some r | _ => None end)
                   ++ log)
        | None => None
        end in
    match o with
    | NoResponse _ => again
    | Received r =>
        if mem_Z (status_code r) [429; 500; 502; 503; 504]%Z
           || (negb (t =? 0)%Z
               && match retry_after r with Some _ => true | None => false end
               && mem_Z (status_code r) RETRY_AFTER_STATUS_CODES)
        then again
        else Some (Return r, [Sent req])
    | Redirect c target => Some (ReturnRedirect c target, [Sent req])
    end.
Proof.
  cbn [urlopen_loop]. cbv zeta.
  destruct (srv n) as [e|r|c target] eqn:Ho.
  - rewrite (increment_client t h _ _ (NoResponse e)).
    destruct (t - 1 <? 0)%Z; reflexivity.
  - rewrite is_retry_client.
    destruct (mem_Z (status_code r) [429; 500; 502; 503; 504]%Z
              || _) eqn:Hr; [|reflexivity].
    rewrite (increment_client t h _ _ (Received r)).
    destruct (t - 1 <? 0)%Z; reflexivity.
  - reflexivity.
Qed.

(** Retries are forced until the counter is used up: the loop ends in
    [MaxRetryError] after [t + 1] attempts. *)
Lemma loop_exhausted (srv : server) (req : PreparedRequest) (t : nat) :
  forall (h : list RequestHistory) (n fuel : nat),
    t < fuel ->
    (forall i, forced (srv (n + i)) = true) ->
    exists log,
      urlopen_loop fuel srv req (client_retry (Z.of_nat t) h) n
        = Some (MaxRetryError (reason_of (srv (n + t))), log)
      /\ attempts log = S t.
Proof.
  induction t as [|t IH]; intros h n fuel Hfuel Hsrv;
    (destruct fuel as [|fuel]; [lia|]); rewrite urlopen_loop_client; cbv zeta.
  - pose proof (Hsrv 0) as H0. rewrite Nat.add_0_r in *.
    change (Z.of_nat 0 - 1 <? 0)%Z with true. cbv iota.
    exists [Sent req]. split; [|reflexivity].
    destruct (srv n) as [e|r|c tg]; [reflexivity| |discriminate H0].
    cbn [forced] in H0. rewrite H0. reflexivity.
  - replace (Z.of_nat (S t) - 1)%Z with (Z.of_nat t) by lia.
    destruct (Z.ltb_spec (Z.of_nat t) 0) as [Hneg|_]; [lia|].
    destruct (IH (h ++ [entry_of (rq_method req) (rq_url req) (srv n)]) (S n) fuel)
      as (log & Hrun & Hatt); [lia| |].
    { intros i. replace (S n + i) with (n + S i) by lia. apply Hsrv. }
    rewrite Hrun. replace (S n + t) with (n + S t) by lia.
    pose proof (Hsrv 0) as H0. rewrite Nat.add_0_r in H0.
    exists (Sent req ::
      sleep (client_retry (Z.of_nat t)
               (h ++ [entry_of (rq_method req) (rq_url req) (srv n)]))
            (match srv n with Received r => Some r | _ => None end) ++ log).
    split.
    + destruct (srv n) as [e|r|c tg]; [reflexivity| |discriminate H0].
      cbn [forced] in H0. rewrite H0. reflexivity.
    + rewrite attempts_step. by rewrite Hatt.
Qed.

(** [k] forced retries and then a response that is not retried: the loop
    hands that response back after [k + 1] attempts. *)
Lemma loop_recovers (srv : server) (req : PreparedRequest) (r : Response) (k : nat) :
  forall (t : Z) (h : list RequestHistory) (n fuel : nat),
    k < fuel ->
    (Z.of_nat k <= t)%Z ->
    (forall i, i < k -> forced (srv (n + i)) = true) ->
    srv (n + k) = Received r ->
    unretried r = true ->
    exists log,
      urlopen_loop fuel srv req (client_retry t h) n = Some (Return r, log)
      /\ attempts log = S k.
Proof.
  induction k as [|k IH]; intros t h n fuel Hfuel Ht Hsrv Hlast Hun;
    (destruct fuel as [|fuel]; [lia|]); rewrite urlopen_loop_client; cbv zeta.
  - rewrite Nat.add_0_r in Hlast. rewrite Hlast.
    unfold unretried in Hun. apply andb_true_iff in Hun as [Hf Hra].
    apply negb_true_iff in Hf, Hra. rewrite Hf. cbn [orb].
    rewrite <- andb_assoc, Hra, andb_false_r.
    exists [Sent req]. done.
  - destruct (Z.ltb_spec (t - 1) 0) as [Hneg|_]; [lia|].
    destruct (IH (t - 1)%Z (h ++ [entry_of (rq_method req) (rq_url req) (srv n)])
                (S n) fuel) as (log & Hrun & Hatt); [lia|lia| | |done|].
    { intros i Hi. replace (S n + i) with (n + S i) by lia. apply Hsrv. lia. }
    { replace (S n + k) with (n + S k) by lia. done. }
    rewrite Hrun.
    pose proof (Hsrv 0 ltac:(lia)) as H0. rewrite Nat.add_0_r in H0.
    exists (Sent req ::
      sleep (client_retry (t - 1)
               (h ++ [entry_of (rq_method req) (rq_url req) (srv n)]))
            (match srv n with Received r => Some r | _ => None end) ++ log).
    split.
    + destruct (srv n) as [e|r0|c tg]; [reflexivity| |discriminate H0].
      cbn [forced] in H0. rewrite H0. reflexivity.
    + rewrite attempts_step. by rewrite Hatt.
Qed.

(** A response that the loop hands back has a status outside the force
    list: with [raise_on_status] left at its default, a forced status
    never leaves the loop as a response. *)
Lemma loop_returns_unforced (srv : server) (req : PreparedRequest) (fuel : nat) :
  forall (t : Z) (h : list RequestHistory) (n : nat) (r : Response) (log : list event),
    urlopen_loop fuel srv req (client_retry t h) n = Some (Return r, log) ->
    mem_Z (status_code r) [429; 500; 502; 503; 504]%Z = false.
Proof.
  induction fuel as [|fuel IH]; intros t h n r log; [done|].
  rewrite urlopen_loop_client; cbv zeta.
  assert (Hagain : forall o,
    (if (t - 1 <? 0)%Z then Some (MaxRetryError (reason_of (srv n)), [Sent req])
     else match urlopen_loop fuel srv req
                  (client_retry (t - 1)
                     (h ++ [entry_of (rq_method req) (rq_url req) (srv n)])) (S n) with
          | Some (res, log0) =>
              Some (res, Sent req :: sleep
                     (client_retry (t - 1)
                        (h ++ [entry_of (rq_method req) (rq_url req) (srv n)])) o ++ log0)
          | None => None
          end) = Some (Return r, log) ->
    mem_Z (status_code r) [429; 500; 502; 503; 504]%Z = false).
  { intros o. destruct (t - 1 <? 0)%Z; [done|].
    destruct (urlopen_loop fuel _ _ _ _) as [[res log0]|] eqn:Hrun; [|done].
    intros [= -> _]. eapply IH, Hrun. }
  destruct (srv n) as [e|r0|c tg]; [apply Hagain| |done].
  destruct (mem_Z (status_code r0) _) eqn:Hf; cbn [orb]; [apply Hagain|].
  destruct (_ && _); [apply Hagain|].
  by intros [= <- _].
Qed.

(** *** The back-off curve *)

Lemma backoff_curve_mono (n m : nat) :
  n <= m -> (backoff_curve 1 n <= backoff_curve 1 m)%Z.
Proof.
  intros Hnm. unfold backoff_curve, DEFAULT_BACKOFF_MAX.
  destruct (Nat.leb_spec n 1), (Nat.leb_spec m 1); try lia.
  assert (2 ^ (Z.of_nat n - 1) <= 2 ^ (Z.of_nat m - 1))%Z
    by (apply Z.pow_le_mono_r; lia).
  generalize dependent (2 ^ (Z.of_nat m - 1))%Z.
  generalize dependent (2 ^ (Z.of_nat n - 1))%Z. intros; lia.
Qed.

Lemma takewhile_all {A} (p : A -> bool) (l : list A) :
  Forall (fun x => p x = true) l -> takewhile p l = l.
Proof. induction 1 as [|x l Hx _ IH]; cbn; [done|]. by rewrite Hx, IH. Qed.

Lemma backoff_time_client (t : Z) (h : list RequestHistory) :
  no_redirect h -> get_backoff_time (client_retry t h) = backoff_curve 1 (length h).
Proof.
  intros Hh. unfold get_backoff_time, consecutive_errors_len. cbn [client_retry history
    backoff_factor].
  rewrite takewhile_all, length_rev; [done|].
  apply Forall_rev. eapply Forall_impl; [exact Hh|].
  intros e He. cbn beta. by rewrite He.
Qed.

Lemma no_redirect_snoc (h : list RequestHistory) (m : Method) (url : string)
    (o : wire_outcome) :
  no_redirect h -> no_redirect (h ++ [entry_of m url o]).
Proof.
  intros Hh. apply Forall_app. split; [done|].
  constructor; [|constructor]. by destruct o.
Qed.

(** The back-off part of one [sleep]: nothing, or the value of the curve
    at the current history length. *)
Lemma backoff_delays_sleep (t : Z) (h : list RequestHistory) (o : option Response) :
  no_redirect h ->
  backoff_delays (sleep (client_retry t h) o) = []
  \/ backoff_delays (sleep (client_retry t h) o) = [backoff_curve 1 (length h)].
Proof.
  intros Hh. unfold sleep. rewrite (backoff_time_client _ _ Hh).
  cbn [client_retry respect_retry_after_header].
  destruct o as [resp|]; [destruct (retry_after resp) as [d|]; [destruct (d =? 0)%Z|]|];
    destruct (backoff_curve 1 (length h) <=? 0)%Z; cbn; auto.
Qed.

Lemma backoff_delays_step (req : PreparedRequest) (r : Retry) (o : option Response)
    (log : list event) :
  backoff_delays (Sent req :: sleep r o ++ log)
  = backoff_delays (sleep r o) ++ backoff_delays log.
Proof. unfold backoff_delays. cbn [omap list_omap]. by rewrite omap_app. Qed.

(** The loop always ends, within [total + 1] attempts; every attempt sends
    the same request; and the back-off sleeps never get shorter. *)
Lemma loop_total (srv : server) (req : PreparedRequest) (fuel : nat) :
  forall (t : Z) (h : list RequestHistory) (n : nat),
    Z.to_nat t < fuel ->
    no_redirect h ->
    exists res log,
      urlopen_loop fuel srv req (client_retry t h) n = Some (res, log)
      /\ 1 <= attempts log <= S (Z.to_nat t)
      /\ sent_requests log = replicate (attempts log) req
      /\ StronglySorted Z.le (backoff_delays log)
      /\ Forall (Z.le (backoff_curve 1 (S (length h)))) (backoff_delays log).
Proof.
  induction fuel as [|fuel IH]; intros t h n Hfuel Hh; [lia|].
  rewrite urlopen_loop_client; cbv zeta.
  set (o := srv n).
  set (h' := h ++ [entry_of (rq_method req) (rq_url req) o]).
  assert (Hend : forall res : urlopen_result,
    exists res0 log,
      Some (res, [Sent req]) = Some (res0, log)
      /\ 1 <= attempts log <= S (Z.to_nat t)
      /\ sent_requests log = replicate (attempts log) req
      /\ StronglySorted Z.le (backoff_delays log)
      /\ Forall (Z.le (backoff_curve 1 (S (length h)))) (backoff_delays log)).
  { intros res. exists res, [Sent req]. cbn. repeat split; try lia; constructor. }
  assert (Hagain : forall ro,
    exists res log,
      (if (t - 1 <? 0)%Z then Some (MaxRetryError (reason_of o), [Sent req])
       else match urlopen_loop fuel srv req (client_retry (t - 1) h') (S n) with
            | Some (res, log) =>
                Some (res, Sent req :: sleep (client_retry (t - 1) h') ro ++ log)
            | None => None
            end) = Some (res, log)
      /\ 1 <= attempts log <= S (Z.to_nat t)
      /\ sent_requests log = replicate (attempts log) req
      /\ StronglySorted Z.le (backoff_delays log)
      /\ Forall (Z.le (backoff_curve 1 (S (length h)))) (backoff_delays log)).
  { intros ro. destruct (Z.ltb_spec (t - 1) 0) as [Hneg|Hpos]; [apply Hend|].
    assert (Hh' : no_redirect h') by apply no_redirect_snoc, Hh.
    destruct (IH (t - 1)%Z h' (S n)) as (res & log & Hrun & Hatt & Hsent & Hsort & Hlow);
      [lia|done|].
    rewrite Hrun. exists res. eexists. split; [reflexivity|].
    assert (Hlen : length h' = S (length h)).
    { unfold h'. rewrite length_app. cbn. lia. }
    rewrite attempts_step, sent_requests_step, backoff_delays_step.
    split; [lia|]. split; [cbn; by rewrite Hsent|].
    assert (Hlow' : Forall (Z.le (backoff_curve 1 (S (length h)))) (backoff_delays log)).
    { eapply Forall_impl; [exact Hlow|]. intros d Hd. cbn beta in *.
      rewrite Hlen in Hd.
      pose proof (backoff_curve_mono (S (length h)) (S (S (length h))) ltac:(lia)). lia. }
    destruct (backoff_delays_sleep (t - 1) h' ro Hh') as [-> | ->]; cbn [app].
    - done.
    - rewrite Hlen. split.
      + constructor; done.
      + constructor; [lia|done]. }
  destruct o as [e|r|c tg]; [apply Hagain| |apply Hend].
  destruct (_ || _); [apply Hagain|apply Hend].
Qed.

End RetryFacts.

(** ** The loop, turn by turn *)

Module LoopFacts.
Import Urllib3 RetryFacts.

(** One turn of the loop, by what the retry object decides. *)
Lemma loop_step (fuel : nat) (srv : server) (req : PreparedRequest)
    (t : Z) (h : list RequestHistory) (n : nat) :
  urlopen_loop (S fuel) srv req (client_retry t h) n =
    let h' := h ++ [entry_of (rq_method req) (rq_url req) (srv n)] in
    if will_retry t (srv n) then
      if (t - 1 <? 0)%Z then Some (MaxRetryError (reason_of (srv n)), [Sent req])
      else
        match urlopen_loop fuel srv req (client_retry (t - 1) h') (S n) with
        | Some (res, log) =>
            Some (res, Sent req :: sleep (client_retry (t - 1) h') (response_of (srv n)) ++ log)
        | None => None
        end
    else
      Some (match srv n with
            | Received r => Return r
            | NoResponse e => MaxRetryError (ReasonError e)
            | Redirect c target => ReturnRedirect c target
            end, [Sent req]).
Proof.
  rewrite urlopen_loop_client. cbv zeta.
  destruct (srv n) as [e|r|c tg]; cbn [will_retry response_of]; [reflexivity| |reflexivity].
  destruct (_ || _); reflexivity.
Qed.

(** A response that leaves the loop is the one the last attempt
    received. *)
Lemma loop_returns_last (srv : server) (req : PreparedRequest) (fuel : nat) :
  forall (t : Z) (h : list RequestHistory) (n : nat) (r : Response) (log : list event),
    urlopen_loop fuel srv req (client_retry t h) n = Some (Return r, log) ->
    1 <= attempts log /\ srv (n + (attempts log - 1)) = Received r.
Proof.
  induction fuel as [|fuel IH]; intros t h n r log; [done|].
  rewrite loop_step. cbv zeta.
  destruct (will_retry t (srv n)) eqn:Hw.
  - destruct (t - 1 <? 0)%Z; [done|].
    destruct (urlopen_loop fuel _ _ _ _) as [[res log0]|] eqn:Hrun; [|done].
    intros [= -> <-]. apply IH in Hrun as [Hatt Hlast].
    rewrite attempts_step. split; [lia|].
    replace (n + (S (attempts log0) - 1)) with (S n + (attempts log0 - 1)) by lia.
    exact Hlast.
  - destruct (srv n) as [e|r0|c tg] eqn:Ho; [done| |done].
    intros [= <- <-]. cbn. rewrite Nat.add_0_r. by split.
Qed.

(** A redirect that leaves the loop is what the last attempt met. *)
Lemma loop_redirect_last (srv : server) (req : PreparedRequest) (fuel : nat) :
  forall (t : Z) (h : list RequestHistory) (n : nat) (c : RedirectStatus) (tg : string)
         (log : list event),
    urlopen_loop fuel srv req (client_retry t h) n = Some (ReturnRedirect c tg, log) ->
    1 <= attempts log /\ srv (n + (attempts log - 1)) = Redirect c tg.
Proof.
  induction fuel as [|fuel IH]; intros t h n c tg log; [done|].
  rewrite loop_step. cbv zeta.
  destruct (will_retry t (srv n)) eqn:Hw.
  - destruct (t - 1 <? 0)%Z; [done|].
    destruct (urlopen_loop fuel _ _ _ _) as [[res log0]|] eqn:Hrun; [|done].
    intros [= -> <-]. apply IH in Hrun as [Hatt Hlast].
    rewrite attempts_step. split; [lia|].
    replace (n + (S (attempts log0) - 1)) with (S n + (attempts log0 - 1)) by lia.
    exact Hlast.
  - destruct (srv n) as [e|r0|c0 tg0] eqn:Ho; [done|done|].
    intros [= <- <- <-]. cbn. rewrite Nat.add_0_r. by split.
Qed.

(** Where the curve is positive it lies between 2 and 120. *)
Lemma backoff_curve_bounds (n : nat) :
  (0 < backoff_curve 1 n)%Z -> 2 <= n /\ (2 <= backoff_curve 1 n <= 120)%Z.
Proof.
  unfold backoff_curve, DEFAULT_BACKOFF_MAX.
  destruct (Nat.leb_spec n 1) as [Hle|Hgt]; [lia|]. intros _.
  assert (2 ^ 1 <= 2 ^ (Z.of_nat n - 1))%Z by (apply Z.pow_le_mono_r; lia).
  change (2 ^ 1)%Z with 2%Z in *.
  generalize dependent (2 ^ (Z.of_nat n - 1))%Z. intros; lia.
Qed.

Lemma backoff_delays_sleep_pos (t : Z) (h : list RequestHistory) (o : option Response) :
  no_redirect h ->
  backoff_delays (sleep (client_retry t h) o) = []
  \/ (backoff_delays (sleep (client_retry t h) o) = [backoff_curve 1 (length h)]
      /\ (0 < backoff_curve 1 (length h))%Z).
Proof.
  intros Hh. unfold sleep. rewrite (backoff_time_client _ _ Hh).
  cbn [client_retry respect_retry_after_header].
  destruct (Z.leb_spec (backoff_curve 1 (length h)) 0);
    destruct o as [resp|]; [destruct (retry_after resp) as [d|]; [destruct (d =? 0)%Z|]| |
                            destruct (retry_after resp) as [d|]; [destruct (d =? 0)%Z|]|];
    cbn; auto.
Qed.

(** Every back-off sleep lasts between 2 and 120 seconds, and the first
    retry of a call is never preceded by one. *)
Lemma loop_backoff_bounds (srv : server) (req : PreparedRequest) (fuel : nat) :
  forall (t : Z) (h : list RequestHistory) (n : nat) (res : urlopen_result)
         (log : list event),
    no_redirect h ->
    urlopen_loop fuel srv req (client_retry t h) n = Some (res, log) ->
    1 <= attempts log
    /\ Forall (fun d => 2 <= d <= 120)%Z (backoff_delays log)
    /\ length (backoff_delays log)
       <= attempts log - (if (length h =? 0)%nat then 2 else 1).
Proof.
  induction fuel as [|fuel IH]; intros t h n res log Hh; [done|].
  rewrite loop_step. cbv zeta.
  set (h' := h ++ [entry_of (rq_method req) (rq_url req) (srv n)]).
  assert (Hend : forall x : urlopen_result, Some (x, [Sent req]) = Some (res, log) ->
    1 <= attempts log
    /\ Forall (fun d => 2 <= d <= 120)%Z (backoff_delays log)
    /\ length (backoff_delays log)
       <= attempts log - (if (length h =? 0)%nat then 2 else 1)).
  { intros x [= _ <-]. cbn. split; [lia|]. split; [constructor|lia]. }
  destruct (will_retry t (srv n)); [|apply Hend].
  destruct (t - 1 <? 0)%Z; [apply Hend|].
  destruct (urlopen_loop fuel _ _ _ _) as [[res0 log0]|] eqn:Hrun; [|done].
  intros [= -> <-].
  assert (Hh' : no_redirect h') by apply no_redirect_snoc, Hh.
  assert (Hlen : length h' = S (length h)).
  { unfold h'. rewrite length_app. cbn. lia. }
  destruct (IH _ _ _ _ _ Hh' Hrun) as (Hatt & Hall & Hcount).
  rewrite Hlen in Hcount. cbn [Nat.eqb] in Hcount.
  rewrite attempts_step, backoff_delays_step.
  split; [lia|].
  destruct (backoff_delays_sleep_pos (t - 1) h' (response_of (srv n)) Hh')
    as [-> | [-> Hpos]]; cbn [app length].
  - split; [done|]. destruct (length h =? 0)%nat; lia.
  - apply backoff_curve_bounds in Hpos as [Hn Hb]. rewrite Hlen in Hn.
    split; [by constructor|].
    destruct (Nat.eqb_spec (length h) 0); lia.
Qed.

Lemma backoff_curve_nonneg (n : nat) : (0 <= backoff_curve 1 n)%Z.
Proof.
  destruct (Z.ltb_spec 0 (backoff_curve 1 n)) as [Hpos|Hle]; [lia|].
  unfold backoff_curve, DEFAULT_BACKOFF_MAX in *.
  destruct (Nat.leb_spec n 1); [lia|].
  assert (0 < 2 ^ (Z.of_nat n - 1))%Z by (apply Z.pow_pos_nonneg; lia).
  generalize dependent (2 ^ (Z.of_nat n - 1))%Z. intros; lia.
Qed.

(** The log of a turn of the loop starts with the request going out. *)
Lemma loop_waits (srv : server) (req : PreparedRequest) (fuel : nat)
    (t : Z) (h : list RequestHistory) (n : nat) (res : urlopen_result) (log : list event) :
  urlopen_loop fuel srv req (client_retry t h) n = Some (res, log) ->
  forall p, waits p log = p :: gaps log.
Proof.
  destruct fuel as [|fuel]; [done|]. rewrite loop_step. cbv zeta.
  destruct (will_retry t (srv n)); [|by intros [= _ <-]].
  destruct (t - 1 <? 0)%Z; [by intros [= _ <-]|].
  destruct (urlopen_loop fuel _ _ _ _) as [[res0 log0]|]; [|done].
  by intros [= _ <-].
Qed.

(** What one [sleep] adds to the wait before the next attempt. *)
Lemma waits_sleep (t : Z) (h : list RequestHistory) (o : wire_outcome) (p : Z)
    (log : list event) :
  no_redirect h ->
  waits p (sleep (client_retry t h) (response_of o) ++ log)
  = waits (p + (let d := match o with
                         | Received r => match retry_after r with Some d => d | None => 0 end
                         | _ => 0
                         end in
                if d =? 0 then backoff_curve 1 (length h) else d))%Z log.
Proof.
  intros Hh. unfold sleep. rewrite (backoff_time_client _ _ Hh).
  cbn [client_retry respect_retry_after_header]. cbv zeta.
  pose proof (backoff_curve_nonneg (length h)) as Hb.
  assert (Hback :
    waits p ((if (backoff_curve 1 (length h) <=? 0)%Z then []
              else [SleepBackoff (backoff_curve 1 (length h))]) ++ log)
    = waits (p + backoff_curve 1 (length h)) log).
  { destruct (Z.leb_spec (backoff_curve 1 (length h)) 0) as [Hle|Hgt]; cbn [app waits].
    - f_equal. lia.
    - reflexivity. }
  destruct o as [e|r|c tg]; cbn [response_of]; [exact Hback| |exact Hback].
  destruct (retry_after r) as [d|]; [|exact Hback].
  destruct (d =? 0)%Z; [exact Hback|reflexivity].
Qed.

(** The delays of one turn of the loop, attempt by attempt. *)
Lemma loop_gaps (srv : server) (req : PreparedRequest) (fuel : nat) :
  forall (t : Z) (h : list RequestHistory) (n : nat) (res : urlopen_result)
         (log : list event),
    no_redirect h ->
    urlopen_loop fuel srv req (client_retry t h) n = Some (res, log) ->
    1 <= attempts log
    /\ gaps log
       = map (fun j => if (asked_delay srv (n + j) =? 0)%Z
                       then backoff_curve 1 (S (length h + j))
                       else asked_delay srv (n + j))
             (seq 0 (attempts log - 1)).
Proof.
  induction fuel as [|fuel IH]; intros t h n res log Hh; [done|].
  rewrite loop_step. cbv zeta.
  set (h' := h ++ [entry_of (rq_method req) (rq_url req) (srv n)]).
  destruct (will_retry t (srv n)); [|intros [= _ <-]; cbn; auto].
  destruct (t - 1 <? 0)%Z; [intros [= _ <-]; cbn; auto|].
  destruct (urlopen_loop fuel _ _ _ _) as [[res0 log0]|] eqn:Hrun; [|done].
  intros [= -> <-].
  assert (Hh' : no_redirect h') by apply no_redirect_snoc, Hh.
  assert (Hlen : length h' = S (length h)).
  { unfold h'. rewrite length_app. cbn. lia. }
  destruct (IH _ _ _ _ _ Hh' Hrun) as (Hatt & Hgaps).
  rewrite attempts_step. split; [lia|].
  unfold gaps at 1. cbn [waits tail].
  rewrite (waits_sleep (t - 1) h' (srv n) 0 log0 Hh').
  rewrite (loop_waits _ _ _ _ _ _ _ _ Hrun), Hgaps, Hlen.
  replace (S (attempts log0) - 1) with (S (attempts log0 - 1)) by lia.
  cbn [seq map]. rewrite !Nat.add_0_r.
  rewrite <- seq_shift, map_map.
  rewrite (map_ext (fun j => if (asked_delay srv (n + S j) =? 0)%Z
                             then backoff_curve 1 (S (length h + S j))
                             else asked_delay srv (n + S j))
                   (fun j => if (asked_delay srv (S n + j) =? 0)%Z
                             then backoff_curve 1 (S (S (length h) + j))
                             else asked_delay srv (S n + j))).
  - f_equal; unfold asked_delay; cbv zeta; by destruct (srv n) as [e|r|c tg].
  - intros j.
    replace (S n + j) with (n + S j) by lia.
    replace (S (length h) + j) with (length h + S j) by lia. reflexivity.
Qed.

(** When every response asks for a non-zero [Retry-After], the call
    never falls back on the back-off: each retry waits as long as the
    response before it said. *)
Lemma loop_retry_after_only (srv : server) (req : PreparedRequest) (fuel : nat) :
  (forall i, exists r d, srv i = Received r /\ retry_after r = Some d /\ d <> 0%Z) ->
  forall (t : Z) (h : list RequestHistory) (n : nat) (res : urlopen_result)
         (log : list event),
    urlopen_loop fuel srv req (client_retry t h) n = Some (res, log) ->
    1 <= attempts log
    /\ backoff_delays log = []
    /\ retry_after_delays log = map (asked_delay srv) (seq n (attempts log - 1)).
Proof.
  intros Hsrv. induction fuel as [|fuel IH]; intros t h n res log; [done|].
  rewrite loop_step. cbv zeta.
  destruct (will_retry t (srv n)); [|intros [= _ <-]; cbn; auto].
  destruct (t - 1 <? 0)%Z; [intros [= _ <-]; cbn; auto|].
  destruct (urlopen_loop fuel _ _ _ _) as [[res0 log0]|] eqn:Hrun; [|done].
  intros [= -> <-]. apply IH in Hrun as (Hatt & Hb & Hra).
  destruct (Hsrv n) as (r & d & Ho & Hd & Hnz). rewrite Ho.
  cbn [response_of]. unfold sleep. cbn [client_retry respect_retry_after_header].
  rewrite Hd. destruct (Z.eqb_spec d 0) as [|_]; [done|].
  cbn [app].
  change (attempts (Sent req :: SleepRetryAfter d :: log0)) with (S (attempts log0)).
  change (backoff_delays (Sent req :: SleepRetryAfter d :: log0)) with (backoff_delays log0).
  change (retry_after_delays (Sent req :: SleepRetryAfter d :: log0))
    with (d :: retry_after_delays log0).
  split; [lia|]. split; [done|].
  replace (S (attempts log0) - 1) with (S (attempts log0 - 1)) by lia.
  cbn [seq map]. rewrite Hra. f_equal.
  unfold asked_delay. by rewrite Ho, Hd.
Qed.


End LoopFacts.

(** ** The session of a constructed client *)

Lemma backoff_delays_app (l1 l2 : list event) :
  backoff_delays (l1 ++ l2) = backoff_delays l1 ++ backoff_delays l2.
Proof. unfold backoff_delays. apply omap_app. Qed.

Section SessionFacts.
Import RetryFacts LoopFacts.

Variable env : Requests.Env.
Variable s : Requests.Session.
Variable mr : Z.
Variable srv : server.
Hypothesis configured : Requests.max_retries s = client_retry mr [].

Lemma send_loop (req : PreparedRequest) (n : nat) :
  Requests.send env s srv req n =
    match Requests.refuses env req with
    | Some e => Some (Requests.Failed e, [])
    | None =>
        match Urllib3.urlopen_loop (S (Z.to_nat mr)) srv req (client_retry mr []) n with
        | None => None
        | Some (Urllib3.Return r, log) => Some (Requests.Answered r, log)
        | Some (Urllib3.ReturnRedirect c target, log) => Some (Requests.Moved c target, log)
        | Some (Urllib3.MaxRetryError why, log) =>
            Some (Requests.Failed (Requests.translate why), log)
        end
    end.
Proof using configured.
  unfold Requests.send, Urllib3.urlopen. rewrite configured. reflexivity.
Qed.

(** Sending one request always ends. *)
Lemma send_spec (req : PreparedRequest) (n : nat) :
  exists out log,
    Requests.send env s srv req n = Some (out, log) /\ send_facts mr srv req n out log.
Proof using configured.
  rewrite send_loop.
  destruct (Requests.refuses env req) as [e|].
  { exists (Requests.Failed e), []. split; [done|].
    unfold send_facts. cbn. repeat split; try lia; constructor. }
  destruct (loop_total srv req (S (Z.to_nat mr)) mr [] n)
    as (res & log & Hrun & Hatt & Hsent & _); [lia|constructor|].
  pose proof (loop_backoff_bounds srv req _ _ _ _ _ _ ltac:(constructor) Hrun)
    as (_ & Hall & Hcount).
  rewrite Hrun. cbn [length Nat.eqb] in Hcount.
  destruct res as [r|why|c tg].
  - exists (Requests.Answered r), log. split; [done|].
    pose proof (loop_returns_unforced _ _ _ _ _ _ _ _ Hrun) as Hf.
    apply loop_returns_last in Hrun as [_ Hlast].
    unfold send_facts. repeat split; try done; lia.
  - exists (Requests.Failed (Requests.translate why)), log. split; [done|].
    unfold send_facts. repeat split; try done; lia.
  - exists (Requests.Moved c tg), log. split; [done|].
    apply loop_redirect_last in Hrun as [_ Hlast].
    unfold send_facts. repeat split; try done; lia.
Qed.

Lemma session_send_eq (budget : nat) (req : PreparedRequest) (n : nat) :
  Requests.session_send budget env s srv req n =
    match Requests.send env s srv req n with
    | None => None
    | Some (Requests.Answered r, log) => Some (inl r, log)
    | Some (Requests.Failed e, log) => Some (inr e, log)
    | Some (Requests.Moved c target, log) =>
        match budget with
        | O => Some (inr Requests.TooManyRedirects, log)
        | S budget' =>
            match Requests.session_send budget' env s srv
                    (Requests.redirected env req c target) (n + attempts log) with
            | Some (res, log') => Some (res, log ++ log')
            | None => None
            end
        end
    end.
Proof. destruct budget; reflexivity. Qed.

(** A request always ends, redirects included. *)
Lemma session_send_spec (budget : nat) :
  forall (req : PreparedRequest) (n : nat),
    exists res log,
      Requests.session_send budget env s srv req n = Some (res, log)
      /\ session_facts mr srv budget n res log.
Proof using configured.
  induction budget as [|budget IH]; intros req n; rewrite session_send_eq;
    destruct (send_spec req n) as (out & log & -> & Hatt & _ & Hall & Hcount & Hout);
    destruct out as [r|c tg|e]; cbn beta iota in Hout.
  - exists (inl r), log. split; [done|]. destruct Hout as (H1 & Hlast & Hf).
    unfold session_facts. split; [lia|]. done.
  - exists (inr Requests.TooManyRedirects), log. split; [done|].
    unfold session_facts. split; [lia|]. done.
  - exists (inr e), log. split; [done|]. unfold session_facts. split; [lia|]. done.
  - exists (inl r), log. split; [done|]. destruct Hout as (H1 & Hlast & Hf).
    unfold session_facts. split; [nia|]. done.
  - destruct (IH (Requests.redirected env req c tg) (n + attempts log))
      as (res & log' & -> & Hatt' & Hall' & Hcount' & Hres).
    destruct Hout as (H1 & _).
    exists res, (log ++ log'). split; [done|].
    unfold session_facts. rewrite attempts_app, backoff_delays_app, length_app.
    split; [nia|]. split; [by apply Forall_app|]. split; [lia|].
    destruct res as [r|e]; [|done].
    destruct Hres as (H1' & Hlast & Hf). split; [lia|]. split; [|done].
    replace (n + (attempts log + attempts log' - 1))
      with (n + attempts log + (attempts log' - 1)) by lia.
    exact Hlast.
  - exists (inr e), log. split; [done|]. unfold session_facts. split; [nia|]. done.
Qed.

(** A request that is sent and not answered by a redirect is one turn of
    the retry loop. *)
Lemma session_send_one_hop (budget : nat) (req : PreparedRequest) (n : nat)
    (res : Urllib3.urlopen_result) (log : list event) :
  Requests.refuses env req = None ->
  Urllib3.urlopen_loop (S (Z.to_nat mr)) srv req (client_retry mr []) n = Some (res, log) ->
  (forall c target, res <> Urllib3.ReturnRedirect c target) ->
  Requests.session_send budget env s srv req n =
    Some (match res with
          | Urllib3.Return r => inl r
          | Urllib3.MaxRetryError why => inr (Requests.translate why)
          | Urllib3.ReturnRedirect _ _ => inr Requests.TooManyRedirects
          end, log).
Proof using configured.
  intros Hok Hrun Hno. rewrite session_send_eq, send_loop, Hok, Hrun.
  destruct res as [r|why|c tg]; [done|done|]. by destruct (Hno c tg).
Qed.

End SessionFacts.

(** ** [_request] on a constructed client *)

Section RequestFacts.
Import RetryFacts LoopFacts.

Variable json_loads : string -> option value.
Variable str_exc : Requests.RequestException -> string.

Lemma client_session (ak : option string) (bu : string) (to mr : Z) :
  Requests.max_retries (session (__init__ ak bu to mr)) = client_retry mr [].
Proof. reflexivity. Qed.

(** [_request_in] in terms of the session. *)
Lemma request_in_session (env : Requests.Env) (ak : option string) (bu : string)
    (to mr : Z) (m : Method) (ep : string) (kw : Requests.Kwargs) (srv : server) :
  _request_in json_loads str_exc env (__init__ ak bu to mr) m ep kw srv =
    match Requests.session_send Requests.DEFAULT_REDIRECT_LIMIT env
            (session (__init__ ak bu to mr)) srv
            (outgoing_in env (__init__ ak bu to mr) m ep kw) 0 with
    | None => None
    | Some (inl r, log) => Some (handle str_exc (try_body json_loads env r), log)
    | Some (inr e, log) =>
        Some (Raises (mkExc AlgoAPIError ("Request failed: " +:+ str_exc e) None VNone), log)
    end.
Proof. reflexivity. Qed.

(** Every call ends; what it returns or raises with a status comes from
    the last response received, which is outside the force list. *)
Lemma request_in_spec (env : Requests.Env) (ak : option string) (bu : string)
    (to mr : Z) (m : Method) (ep : string) (kw : Requests.Kwargs) (srv : server) :
  exists res log,
    Requests.session_send Requests.DEFAULT_REDIRECT_LIMIT env
      (session (__init__ ak bu to mr)) srv
      (outgoing_in env (__init__ ak bu to mr) m ep kw) 0 = Some (res, log)
    /\ session_facts mr srv Requests.DEFAULT_REDIRECT_LIMIT 0 res log
    /\ _request_in json_loads str_exc env (__init__ ak bu to mr) m ep kw srv
       = Some (match res with
               | inl r => handle str_exc (try_body json_loads env r)
               | inr e =>
                   Raises (mkExc AlgoAPIError ("Request failed: " +:+ str_exc e) None VNone)
               end, log).
Proof.
  destruct (session_send_spec env (session (__init__ ak bu to mr)) mr srv
              (client_session ak bu to mr) Requests.DEFAULT_REDIRECT_LIMIT
              (outgoing_in env (__init__ ak bu to mr) m ep kw) 0)
    as (res & log & Hrun & Hfacts).
  exists res, log. split; [done|]. split; [done|].
  rewrite request_in_session, Hrun. by destruct res.
Qed.

(** A call whose request is sent and never answered by a redirect is one
    turn of the retry loop. *)
Lemma request_in_one_hop (env : Requests.Env) (ak : option string) (bu : string)
    (to mr : Z) (m : Method) (ep : string) (kw : Requests.Kwargs) (srv : server)
    (res : Urllib3.urlopen_result) (log : list event) :
  Requests.refuses env (outgoing_in env (__init__ ak bu to mr) m ep kw) = None ->
  Urllib3.urlopen_loop (S (Z.to_nat mr)) srv
    (outgoing_in env (__init__ ak bu to mr) m ep kw) (client_retry mr []) 0
    = Some (res, log) ->
  (forall c target, res <> Urllib3.ReturnRedirect c target) ->
  _request_in json_loads str_exc env (__init__ ak bu to mr) m ep kw srv =
    Some (match res with
          | Urllib3.Return r => handle str_exc (try_body json_loads env r)
          | Urllib3.MaxRetryError why =>
              Raises (mkExc AlgoAPIError
                        ("Request failed: " +:+ str_exc (Requests.translate why))
                        None VNone)
          | Urllib3.ReturnRedirect _ _ =>
              Raises (mkExc AlgoAPIError
                        ("Request failed: " +:+ str_exc Requests.TooManyRedirects)
                        None VNone)
          end, log).
Proof.
  intros Hok Hrun Hno. rewrite request_in_session.
  rewrite (session_send_one_hop env _ mr srv (client_session ak bu to mr) _ _ _ _ _
             Hok Hrun Hno).
  by destruct res.
Qed.

(** The same in the plain environment, where every request is sent and
    goes out with the session's headers. *)
Lemma request_one_hop (ak : option string) (bu : string) (to mr : Z) (m : Method)
    (ep : string) (kw : Requests.Kwargs) (srv : server)
    (res : Urllib3.urlopen_result) (log : list event) :
  Urllib3.urlopen_loop (S (Z.to_nat mr)) srv
    (outgoing (__init__ ak bu to mr) m ep kw) (client_retry mr []) 0 = Some (res, log) ->
  (forall c target, res <> Urllib3.ReturnRedirect c target) ->
  _request json_loads str_exc (__init__ ak bu to mr) m ep kw srv =
    Some (match res with
          | Urllib3.Return r => handle str_exc (try_body json_loads Requests.plain r)
          | Urllib3.MaxRetryError why =>
              Raises (mkExc AlgoAPIError
                        ("Request failed: " +:+ str_exc (Requests.translate why))
                        None VNone)
          | Urllib3.ReturnRedirect _ _ =>
              Raises (mkExc AlgoAPIError
                        ("Request failed: " +:+ str_exc Requests.TooManyRedirects)
                        None VNone)
          end, log).
Proof.
  intros Hrun Hno.
  apply (request_in_one_hop Requests.plain ak bu to mr m ep kw srv res log);
    [reflexivity|exact Hrun|exact Hno].
Qed.

(** Every call ends, after at least one attempt. *)
Lemma request_total (ak : option string) (bu : string) (to mr : Z) (m : Method)
    (ep : string) (kw : Requests.Kwargs) (srv : server) :
  exists res log,
    _request json_loads str_exc (__init__ ak bu to mr) m ep kw srv = Some (res, log)
    /\ 1 <= attempts log <= S Requests.DEFAULT_REDIRECT_LIMIT * S (Z.to_nat mr).
Proof.
  unfold _request. rewrite request_in_session.
  change (outgoing_in Requests.plain (__init__ ak bu to mr) m ep kw)
    with (outgoing (__init__ ak bu to mr) m ep kw).
  set (req := outgoing (__init__ ak bu to mr) m ep kw).
  rewrite session_send_eq.
  destruct (send_spec Requests.plain _ mr srv (client_session ak bu to mr) req 0)
    as (out & log & Hsend & Hatt & _ & _ & _ & Hout).
  rewrite Hsend.
  assert (H1 : 1 <= attempts log).
  { destruct out as [r|c tg|e]; try (destruct Hout; lia).
    revert Hsend.
    rewrite (send_loop Requests.plain _ mr srv (client_session ak bu to mr)).
    destruct (loop_total srv req (S (Z.to_nat mr)) mr [] 0)
      as (res & log0 & Hrun & Hatt0 & _); [lia|constructor|].
    cbn [Requests.refuses Requests.plain]. rewrite Hrun.
    destruct res; intros [= _ <-]; lia. }
  destruct out as [r|c tg|e].
  - eexists _, log. split; [reflexivity|]. cbn. lia.
  - cbn [Requests.DEFAULT_REDIRECT_LIMIT].
    destruct (session_send_spec Requests.plain _ mr srv (client_session ak bu to mr) 29
                (Requests.redirected Requests.plain req c tg) (0 + attempts log))
      as (res & log' & -> & Hatt' & _).
    destruct res as [r|e]; eexists _, (log ++ log'); (split; [reflexivity|]);
      rewrite attempts_app; cbn in *; lia.
  - eexists _, log. split; [reflexivity|]. cbn. lia.
Qed.

(** Forced retries on every attempt: the call raises the base error with
    neither status code nor body, after [max_retries + 1] attempts. *)
Lemma request_exhausted (ak : option string) (bu : string) (to mr : Z) (m : Method)
    (ep : string) (kw : Requests.Kwargs) (srv : server) :
  (0 <= mr)%Z ->
  (forall i, forced (srv i) = true) ->
  exists log,
    _request json_loads str_exc (__init__ ak bu to mr) m ep kw srv
      = Some (Raises (mkExc AlgoAPIError
                        ("Request failed: "
                         +:+ str_exc (Requests.translate (reason_of (srv (Z.to_nat mr)))))
                        None VNone), log)
    /\ attempts log = S (Z.to_nat mr).
Proof.
  intros Hmr Hsrv.
  destruct (loop_exhausted srv (outgoing (__init__ ak bu to mr) m ep kw)
              (Z.to_nat mr) [] 0 (S (Z.to_nat mr))) as (log & Hrun & Hatt);
    [lia|done|].
  rewrite Z2Nat.id in Hrun by done.
  exists log. split; [|done].
  by rewrite (request_one_hop ak bu to mr m ep kw srv _ _ Hrun).
Qed.

(** [k] forced retries, [k <= max_retries], and then a response that is
    not retried: that response reaches the status dispatch. *)
Lemma request_recovers (ak : option string) (bu : string) (to mr : Z) (m : Method)
    (ep : string) (kw : Requests.Kwargs) (srv : server) (k : nat) (r : Response) :
  (Z.of_nat k <= mr)%Z ->
  (forall i, i < k -> forced (srv i) = true) ->
  srv k = Received r ->
  unretried r = true ->
  exists log,
    _request json_loads str_exc (__init__ ak bu to mr) m ep kw srv
      = Some (handle str_exc (try_body json_loads Requests.plain r), log)
    /\ attempts log = S k.
Proof.
  intros Hk Hsrv Hlast Hun.
  destruct (loop_recovers srv (outgoing (__init__ ak bu to mr) m ep kw) r k
              mr [] 0 (S (Z.to_nat mr))) as (log & Hrun & Hatt);
    [lia|done|done|done|done|].
  exists log. split; [|done].
  by rewrite (request_one_hop ak bu to mr m ep kw srv _ _ Hrun).
Qed.

(** In the plain environment the dispatch is the one on the decoder
    alone. *)
Lemma with_json_plain (r : Response) (k : value -> try_result) :
  with_json json_loads Requests.plain r k =
    match json_loads (content r) with
    | Some v => k v
    | None => TRequestException Requests.JSONDecodeError
    end.
Proof. unfold with_json, Requests.response_json. cbn. by destruct (json_loads (content r)). Qed.

(** The status dispatch never sees a status of the force list, so the
    [429] branch of [_request] cannot be taken: no call raises
    [AlgoRateLimitError]. *)
Lemma request_never_rate_limited (ak : option string) (bu : string) (to mr : Z)
    (m : Method) (ep : string) (kw : Requests.Kwargs) (srv : server)
    (e : AlgoException) (log : list event) :
  _request json_loads str_exc (__init__ ak bu to mr) m ep kw srv = Some (Raises e, log) ->
  exc_class e <> AlgoRateLimitError.
Proof.
  unfold _request.
  destruct (request_in_spec Requests.plain ak bu to mr m ep kw srv)
    as (res & log0 & _ & (_ & _ & _ & Hres) & ->).
  destruct res as [r|x]; [|by intros [= <- _]].
  destruct Hres as (_ & _ & Hf).
  unfold try_body. rewrite !with_json_plain.
  destruct (Z.eqb_spec (status_code r) 429) as [H429|_].
  { rewrite H429 in Hf. discriminate Hf. }
  repeat (match goal with
          | |- context [if ?c then _ else _] => destruct c
          | |- context [match json_loads ?x with _ => _ end] => destruct (json_loads x)
          end; cbn [handle]);
    intros [= <- _]; done.
Qed.

End RequestFacts.

(** ** The execution engine: outcomes of [_request] *)

Section Engine.
Import RetryFacts.

Variable json_loads : string -> option value.
Variable str_exc : Requests.RequestException -> string.

Lemma below_400_unretried (r : Response) :
  (status_code r < 400)%Z -> unretried r = true.
Proof.
  intros Hlt. unfold unretried, Urllib3.mem_Z, Urllib3.RETRY_AFTER_STATUS_CODES. cbn [existsb].
  repeat match goal with
         | |- context [(?a =? ?b)%Z] => destruct (Z.eqb_spec a b); [lia|]
         end.
  by destruct (retry_after r).
Qed.

Lemma terminal_4xx_unretried (r : Response) :
  In (status_code r) [401; 404; 400]%Z -> unretried r = true.
Proof.
  intros Hin. unfold unretried, Urllib3.mem_Z, Urllib3.RETRY_AFTER_STATUS_CODES. cbn [existsb].
  cbn [In] in Hin.
  repeat match goal with
         | |- context [(?a =? ?b)%Z] => destruct (Z.eqb_spec a b); [lia|]
         end.
  by destruct (retry_after r).
Qed.

(** C1 (the code departs from the claim). A [401], [404] or [400] whose
    body does not decode as JSON -- an empty body, say -- is not reported
    under its own kind: [response.json()] raises inside the [try] block,
    the [except] clause catches it, and the caller gets the base
    [AlgoAPIError] with no status code and no body, which is what a
    transport failure looks like. *)
Theorem undecodable_4xx_body_loses_kind_and_status
    (ak : option string) (bu : string) (to mr : Z) (m : Method) (ep : string)
    (kw : Requests.Kwargs) (srv : server) (r : Response) :
  srv 0 = Received r ->
  In (status_code r) [401; 404; 400]%Z ->
  json_loads (content r) = None ->
  (0 <= mr)%Z ->
  exists e log,
    _request json_loads str_exc (__init__ ak bu to mr) m ep kw srv = Some (Raises e, log)
    /\ e = mkExc AlgoAPIError ("Request failed: " +:+ str_exc Requests.JSONDecodeError)
             None VNone
    /\ kind_of e = TransportFailure
    /\ exc_status_code e = None.
Proof.
  intros Hsrv Hst Hjson Hmr.
  destruct (request_recovers json_loads str_exc ak bu to mr m ep kw srv 0 r)
    as (log & Hrun & _); [lia|intros; lia|done|by apply terminal_4xx_unretried|].
  eexists _, log. split; [|done].
  rewrite Hrun. f_equal. f_equal.
  unfold try_body, with_json, Requests.response_json. rewrite Hjson.
  cbn [In] in Hst. destruct Hst as [<-|[<-|[<-|[]]]]; reflexivity.
Qed.

(** C2. [k < max_retries] answers with status 500 and then a 200 whose
    body decodes: the call returns the decoded value and has made
    [k + 1] attempts. *)
Theorem recovers_after_500s
    (ak : option string) (bu : string) (to mr : Z) (m : Method) (ep : string)
    (kw : Requests.Kwargs) (srv : server) (k : nat) (r : Response) (v : value) :
  json_loads "" = None ->
  (Z.of_nat k < mr)%Z ->
  (forall i, i < k -> exists ri, srv i = Received ri /\ status_code ri = 500%Z) ->
  srv k = Received r ->
  status_code r = 200%Z ->
  json_loads (content r) = Some v ->
  exists log,
    _request json_loads str_exc (__init__ ak bu to mr) m ep kw srv = Some (Returns v, log)
    /\ attempts log = k + 1.
Proof.
  intros Hempty Hk Hfail Hlast Hst Hjson.
  destruct (request_recovers json_loads str_exc ak bu to mr m ep kw srv k r)
    as (log & Hrun & Hatt); [lia| |done|apply below_400_unretried; lia|].
  { intros i Hi. destruct (Hfail i Hi) as (ri & -> & Hri). cbn. by rewrite Hri. }
  exists log. split; [|lia].
  rewrite Hrun. f_equal. f_equal.
  unfold try_body, with_json, Requests.response_json, nonempty.
  rewrite Hst, Hjson. cbn.
  destruct (String.eqb_spec (content r) "") as [Hc|_]; [|reflexivity].
  rewrite Hc, Hempty in Hjson. discriminate.
Qed.

(** C3 (the code departs from the claim). Status 503 on every attempt:
    the call does make exactly [max_retries + 1] attempts, but the error
    it raises carries no status code -- the adapter turns the exhausted
    retries into a [RetryError], and the [except] clause wraps that
    without the response. *)
Theorem always_503_exhausts_without_status
    (ak : option string) (bu : string) (to mr : Z) (m : Method) (ep : string)
    (kw : Requests.Kwargs) (srv : server) :
  (0 <= mr)%Z ->
  (forall i, exists ri, srv i = Received ri /\ status_code ri = 503%Z) ->
  exists e log,
    _request json_loads str_exc (__init__ ak bu to mr) m ep kw srv = Some (Raises e, log)
    /\ Z.of_nat (attempts log) = (mr + 1)%Z
    /\ e = mkExc AlgoAPIError
             ("Request failed: " +:+ str_exc (Requests.RetryError (Some 503%Z))) None VNone
    /\ exc_status_code e = None.
Proof.
  intros Hmr Hsrv.
  destruct (request_exhausted json_loads str_exc ak bu to mr m ep kw srv Hmr)
    as (log & Hrun & Hatt).
  { intros i. destruct (Hsrv i) as (ri & -> & Hri). cbn. by rewrite Hri. }
  eexists _, log. split; [exact Hrun|]. split; [lia|].
  destruct (Hsrv (Z.to_nat mr)) as (ri & -> & Hri). cbn. by rewrite Hri.
Qed.

(** C4 (the code departs from the claim). A 404 on the first attempt is
    never retried: one attempt is made. The error is [AlgoNotFoundError]
    with status 404 when the body decodes; with an empty body the call
    raises the base [AlgoAPIError] with no status code instead. *)
Theorem not_found_single_attempt_but_empty_body_loses_kind
    (ak : option string) (bu : string) (to mr : Z) (m : Method) (ep : string)
    (kw : Requests.Kwargs) (srv : server) (r : Response) :
  json_loads "" = None ->
  (0 <= mr)%Z ->
  srv 0 = Received r ->
  status_code r = 404%Z ->
  exists res log,
    _request json_loads str_exc (__init__ ak bu to mr) m ep kw srv = Some (res, log)
    /\ attempts log = 1
    /\ (forall v, json_loads (content r) = Some v ->
          res = Raises (mkExc AlgoNotFoundError "Resource not found" (Some 404%Z) v))
    /\ (content r = "" ->
          res = Raises (mkExc AlgoAPIError
                          ("Request failed: " +:+ str_exc Requests.JSONDecodeError)
                          None VNone)).
Proof.
  intros Hempty Hmr Hsrv Hst.
  destruct (request_recovers json_loads str_exc ak bu to mr m ep kw srv 0 r)
    as (log & Hrun & Hatt); [lia|intros; lia|done| |].
  { apply terminal_4xx_unretried. rewrite Hst. cbn. auto. }
  eexists _, log. split; [exact Hrun|]. split; [done|].
  unfold try_body, with_json, Requests.response_json. rewrite Hst. cbn.
  split.
  - intros v ->. reflexivity.
  - intros ->. rewrite Hempty. reflexivity.
Qed.

(** C5 (the code departs from the claim). Status 429 with the body
    [{"error": "rate limited"}] on every attempt: after [max_retries + 1]
    attempts the call raises the base [AlgoAPIError], with neither the
    status 429 nor the body, and its kind is not [RateLimited]. *)
Theorem always_429_is_not_rate_limited
    (ak : option string) (bu : string) (to mr : Z) (m : Method) (ep : string)
    (kw : Requests.Kwargs) (srv : server) :
  (0 <= mr)%Z ->
  (forall i, exists ra, srv i = Received (mkResponse 429 rate_limited_body ra)) ->
  exists e log,
    _request json_loads str_exc (__init__ ak bu to mr) m ep kw srv = Some (Raises e, log)
    /\ Z.of_nat (attempts log) = (mr + 1)%Z
    /\ kind_of e <> RateLimited
    /\ exc_status_code e = None
    /\ exc_response e = VNone.
Proof.
  intros Hmr Hsrv.
  destruct (request_exhausted json_loads str_exc ak bu to mr m ep kw srv Hmr)
    as (log & Hrun & Hatt).
  { intros i. by destruct (Hsrv i) as (ra & ->). }
  eexists _, log. split; [exact Hrun|]. split; [lia|]. done.
Qed.

(** C8. Whatever the environment and whatever redirects were followed on
    the way: when the session hands back a response with a status in
    [200, 400) and an empty body, the call returns [None] and raises
    nothing; the body is not given to the decoder at all. *)
Theorem handed_back_empty_success_returns_none
    (env : Requests.Env) (self : AlgoSDK) (m : Method) (ep : string)
    (kw : Requests.Kwargs) (srv : server) (r : Response) (log : list event) :
  Requests.request env (session self) m (base_url self +:+ ep) (timeout self) kw srv
    = Some (inl r, log) ->
  (200 <= status_code r < 400)%Z ->
  content r = "" ->
  _request_in json_loads str_exc env self m ep kw srv = Some (Returns VNone, log).
Proof.
  intros Hrun Hst Hc. unfold _request_in. rewrite Hrun. f_equal. f_equal.
  unfold try_body, nonempty. rewrite Hc.
  repeat match goal with
         | |- context [(?a =? ?b)%Z] => destruct (Z.eqb_spec a b); [lia|]
         end.
  destruct (Z.geb_spec (status_code r) 400); [lia|]. reflexivity.
Qed.

(** The same at the wire, in the plain environment: a response that is
    not a redirect to follow, with a status in [200, 400) and an empty
    body, received after any number of retried attempts that the retry
    budget covers, makes the call return [None]. *)
Theorem empty_success_body_returns_none
    (ak : option string) (bu : string) (to mr : Z) (m : Method) (ep : string)
    (kw : Requests.Kwargs) (srv : server) (k : nat) (r : Response) :
  (Z.of_nat k <= mr)%Z ->
  (forall i, i < k -> forced (srv i) = true) ->
  srv k = Received r ->
  (200 <= status_code r < 400)%Z ->
  content r = "" ->
  exists log,
    _request json_loads str_exc (__init__ ak bu to mr) m ep kw srv
      = Some (Returns VNone, log).
Proof.
  intros Hk Hfail Hlast Hst Hc.
  destruct (request_recovers json_loads str_exc ak bu to mr m ep kw srv k r)
    as (log & Hrun & _); [done|done|done|apply below_400_unretried; lia|].
  exists log. rewrite Hrun. f_equal. f_equal.
  unfold try_body, nonempty. rewrite Hc.
  repeat match goal with
         | |- context [(?a =? ?b)%Z] => destruct (Z.eqb_spec a b); [lia|]
         end.
  destruct (Z.geb_spec (status_code r) 400); [lia|]. reflexivity.
Qed.

End Engine.

(** ** Headers and back-off *)

Section Session.
Import RetryFacts LoopFacts.

Variable json_loads : string -> option value.
Variable str_exc : Requests.RequestException -> string.



(** Without credentials from outside, the request goes out with the
    headers of the session. *)
Lemma outgoing_in_headers (env : Requests.Env) (self : AlgoSDK) (m : Method)
    (ep : string) (kw : Requests.Kwargs) :
  Requests.netrc_auth env (base_url self +:+ ep) = None ->
  Requests.url_auth env (base_url self +:+ ep) = None ->
  rq_headers (outgoing_in env self m ep kw) = Requests.headers (session self).
Proof.
  intros Hn Hu. unfold outgoing_in, Requests.prepare_request. cbn [rq_headers].
  by rewrite Hn, Hu.
Qed.

(** A call that meets no redirect is its one request through the retry
    loop, or nothing at all when that request is refused. *)
Lemma request_in_no_redirect (env : Requests.Env) (ak : option string) (bu : string)
    (to mr : Z) (m : Method) (ep : string) (kw : Requests.Kwargs) (srv : server) :
  (forall i, is_redirect (srv i) = false) ->
  exists res log,
    _request_in json_loads str_exc env (__init__ ak bu to mr) m ep kw srv = Some (res, log)
    /\ attempts log <= S (Z.to_nat mr)
    /\ sent_requests log
       = replicate (attempts log) (outgoing_in env (__init__ ak bu to mr) m ep kw)
    /\ gaps log = map (delay_after srv) (seq 0 (attempts log - 1))
    /\ (Requests.refuses env (outgoing_in env (__init__ ak bu to mr) m ep kw) <> None ->
        log = []).
Proof.
  intros Hno. set (req := outgoing_in env (__init__ ak bu to mr) m ep kw).
  destruct (Requests.refuses env req) as [e|] eqn:Href.
  - rewrite request_in_session.
    rewrite (session_send_eq env), (send_loop env _ mr srv (client_session ak bu to mr)).
    fold req. rewrite Href.
    eexists _, []. split; [reflexivity|]. cbn. repeat split; lia.
  - destruct (loop_total srv req (S (Z.to_nat mr)) mr [] 0)
      as (res & log & Hrun & Hatt & Hsent & _); [lia|constructor|].
    assert (Hnr : forall c tg, res <> Urllib3.ReturnRedirect c tg).
    { intros c tg ->. apply loop_redirect_last in Hrun as [_ Hlast].
      specialize (Hno (0 + (attempts log - 1))). rewrite Hlast in Hno. discriminate. }
    rewrite (request_in_one_hop json_loads str_exc env ak bu to mr m ep kw srv res log
               Href Hrun Hnr).
    eexists _, log. split; [reflexivity|]. split; [lia|]. split; [exact Hsent|].
    destruct (loop_gaps srv req _ _ _ _ _ _ ltac:(constructor) Hrun) as [_ Hg].
    split; [exact Hg|done].
Qed.


(** C7, as the code has it. The back-off curve configured by the constructor
    ([backoff_factor=1]) never decreases with the number of failed
    attempts. Every call ends, after at most [max_retries + 1] attempts
    for the request and as many for each of the at most 30 redirects
    that are followed. In a call that meets no redirect, the delay
    between attempt [i + 1] and attempt [i + 2] is the [Retry-After] of
    response [i + 1] if it has one that is not 0 and the value of the
    curve otherwise; so among the delays that no [Retry-After] dictates,
    a later one is never shorter than an earlier one. ([gaps] and
    [delay_after] count attempts from 0.) *)
Theorem delays_follow_the_curve_and_retries_are_bounded :
  (forall i d : nat,
     (Urllib3.backoff_curve 1 i <= Urllib3.backoff_curve 1 (i + d))%Z)
  /\
  (forall (env : Requests.Env) (ak : option string) (bu : string) (to mr : Z)
          (m : Method) (ep : string) (kw : Requests.Kwargs) (srv : server),
     exists res log,
       _request_in json_loads str_exc env (__init__ ak bu to mr) m ep kw srv
         = Some (res, log)
       /\ attempts log <= S Requests.DEFAULT_REDIRECT_LIMIT * S (Z.to_nat mr))
  /\
  (forall (env : Requests.Env) (ak : option string) (bu : string) (to mr : Z)
          (m : Method) (ep : string) (kw : Requests.Kwargs) (srv : server),
     (forall i, is_redirect (srv i) = false) ->
     exists res log,
       _request_in json_loads str_exc env (__init__ ak bu to mr) m ep kw srv
         = Some (res, log)
       /\ attempts log <= S (Z.to_nat mr)
       /\ gaps log = map (delay_after srv) (seq 0 (attempts log - 1))
       /\ (forall i j di dj,
             i <= j ->
             gaps log !! i = Some di ->
             gaps log !! j = Some dj ->
             asked_delay srv i = 0%Z ->
             asked_delay srv j = 0%Z ->
             (di <= dj)%Z)).
Proof.
  split; [|split].
  - intros i d. apply backoff_curve_mono. lia.
  - intros env ak bu to mr m ep kw srv.
    destruct (request_in_spec json_loads str_exc env ak bu to mr m ep kw srv)
      as (res & log & _ & (Hatt & _) & Hrun).
    eexists _, log. split; [exact Hrun|exact Hatt].
  - intros env ak bu to mr m ep kw srv Hno.
    destruct (request_in_no_redirect env ak bu to mr m ep kw srv Hno)
      as (res & log & Hrun & Hatt & _ & Hgaps & _).
    exists res, log. split; [done|]. split; [done|]. split; [done|].
    intros i j di dj Hij Hi Hj Hai Haj. rewrite Hgaps in Hi, Hj.
    apply list_lookup_fmap_Some in Hi as (i' & -> & Hi).
    apply list_lookup_fmap_Some in Hj as (j' & -> & Hj).
    apply lookup_seq in Hi as [-> _]. apply lookup_seq in Hj as [-> _].
    cbn [Nat.add]. unfold delay_after. rewrite Hai, Haj. cbn [Z.eqb].
    apply backoff_curve_mono. lia.
Qed.

End Session.

(** ** Resource call-sites: optional fields *)

Lemma dict_get_set_eq (k : string) (v : value) (d : dict) :
  dict_get k (dict_set k v d) = Some v.
Proof.
  induction d as [|[k' v'] d IH]; cbn.
  - by rewrite String.eqb_refl.
  - destruct (String.eqb k k') eqn:Hk; cbn.
    + by rewrite String.eqb_refl.
    + rewrite Hk. exact IH.
Qed.

Lemma dict_get_set_ne (k k' : string) (v : value) (d : dict) :
  k <> k' -> dict_get k (dict_set k' v d) = dict_get k d.
Proof.
  intros Hne. induction d as [|[k0 v0] d IH]; cbn.
  - destruct (String.eqb_spec k k'); done.
  - destruct (String.eqb_spec k' k0) as [->|Hk0]; cbn.
    + destruct (String.eqb_spec k k0); done.
    + destruct (String.eqb_spec k k0); [done|exact IH].
Qed.

Lemma dict_get_update_unbound (k : string) (other : dict) :
  forall d : dict, dict_get k other = None -> dict_get k (dict_update d other) = dict_get k d.
Proof.
  unfold dict_update.
  induction other as [|[k' v'] other IH]; intros d Hk; cbn in *; [done|].
  destruct (String.eqb_spec k k') as [->|Hne]; [done|].
  rewrite IH by done. by apply dict_get_set_ne.
Qed.

Lemma truthy_of_str (o : option string) :
  truthy (of_str o) = match o with Some s => negb (String.eqb s "") | None => false end.
Proof. by destruct o. Qed.

(** C9, as the code has it. For every resource operation and each of its
    optional parameters, the field is in the request body or query
    exactly when the argument is truthy, and then with the argument as
    its value; an omitted argument and an empty or zero one are both left
    out. *)
Theorem optional_field_sent_iff_truthy (op : Op) (k : string) (x : value) :
  kwargs_bound op ->
  In (k, x) (optional_args op) ->
  dict_get k (payload (call_of op)) = if truthy x then Some x else None.
Proof.
  intros Hkw Hin.
  destruct op; cbn [optional_args In] in Hin;
    repeat match goal with
           | H : _ \/ _ |- _ => destruct H
           | H : False |- _ => destruct H
           | H : (_, _) = (_, _) |- _ => injection H as <- <-
           end;
    try (cbn [call_of payload]; unfold payload; cbn -[truthy dict_get dict_set];
         unfold set_if;
         repeat match goal with
                | |- context [truthy ?v] => destruct (truthy v) eqn:?
                end;
         cbn; reflexivity).
  (* projects.create: the body is updated with the open keyword arguments *)
  cbn [call_of]. unfold ProjectsAPI.create, payload. cbn [c_kwargs with_json_body Requests.json].
  rewrite dict_get_update_unbound.
  - unfold set_if. destruct (truthy (of_str description)); cbn; reflexivity.
  - apply Hkw. cbn. auto.
Qed.

(** C9, as stated, fails: a value was provided for [name], the empty
    string, and the body of [users.create] has no ["name"] field. *)
Lemma provided_empty_name_is_not_sent :
  of_str (Some "") <> VNone
  /\ In ("name", of_str (Some "")) (optional_args (users_create "a@b.c" "ann" "pw" (Some "")))
  /\ dict_mem "name" (payload (call_of (users_create "a@b.c" "ann" "pw" (Some "")))) = false.
Proof. split; [discriminate|]. split; [cbn; auto|reflexivity]. Qed.

Section Falsy.

Variable json_loads : string -> option value.
Variable str_exc : Requests.RequestException -> string.

(** C10. A falsy optional argument is the same call as an omitted one:
    [name=""] in [users.create], [project_id=0] in [webhooks.create] and
    [webhooks.list], [search=""] in the list operations that take it. The
    whole run, with every request sent, is the same. *)
Theorem falsy_optional_same_as_omitted (self : AlgoSDK) (srv : server) :
  (forall email username password,
     perform json_loads str_exc self (users_create email username password (Some "")) srv
     = perform json_loads str_exc self (users_create email username password None) srv)
  /\ (forall url events secret,
     perform json_loads str_exc self (webhooks_create url events (Some 0%Z) secret) srv
     = perform json_loads str_exc self (webhooks_create url events None secret) srv)
  /\ (forall page limit,
     perform json_loads str_exc self (webhooks_list page limit (Some 0%Z)) srv
     = perform json_loads str_exc self (webhooks_list page limit None) srv)
  /\ (forall page limit,
     perform json_loads str_exc self (users_list page limit (Some "")) srv
     = perform json_loads str_exc self (users_list page limit None) srv)
  /\ (forall page limit,
     perform json_loads str_exc self (projects_list page limit (Some "")) srv
     = perform json_loads str_exc self (projects_list page limit None) srv).
Proof. repeat split; reflexivity. Qed.

End Falsy.

(** ** Concrete runs *)

Lemma undecodable_4xx_body_witness :
  exists e log,
    _request Sample.loads Sample.str_exc (__init__ (Some "secret") default_base_url 30 3)
      GET "/users/7" no_kwargs (Sample.always 401 "") = Some (Raises e, log)
    /\ e = mkExc AlgoAPIError
             ("Request failed: " +:+ Sample.str_exc Requests.JSONDecodeError) None VNone
    /\ kind_of e = TransportFailure
    /\ exc_status_code e = None.
Proof.
  apply (undecodable_4xx_body_loses_kind_and_status Sample.loads Sample.str_exc
           (Some "secret") default_base_url 30 3 GET "/users/7" no_kwargs
           (Sample.always 401 "") (mkResponse 401 "" None)).
  - reflexivity.
  - simpl. auto.
  - reflexivity.
  - lia.
Defined.

Lemma recovers_after_500s_witness :
  exists log,
    _request Sample.loads Sample.str_exc (__init__ None default_base_url 30 3)
      GET "/projects" no_kwargs (Sample.fails_then 2 (mkResponse 200 "{}" None))
      = Some (Returns (VDict []), log)
    /\ attempts log = 2 + 1.
Proof.
  apply (recovers_after_500s Sample.loads Sample.str_exc None default_base_url 30 3
           GET "/projects" no_kwargs (Sample.fails_then 2 (mkResponse 200 "{}" None))
           2 (mkResponse 200 "{}" None) (VDict [])).
  - reflexivity.
  - lia.
  - intros i Hi. exists (mkResponse 500 "" None).
    destruct i as [|[|i]]; [split; reflexivity|split; reflexivity|lia].
  - reflexivity.
  - reflexivity.
  - reflexivity.
Defined.

Lemma always_503_witness :
  exists e log,
    _request Sample.loads Sample.str_exc (__init__ None default_base_url 30 3)
      GET "/projects" no_kwargs (Sample.always 503 "") = Some (Raises e, log)
    /\ Z.of_nat (attempts log) = (3 + 1)%Z
    /\ e = mkExc AlgoAPIError
             ("Request failed: " +:+ Sample.str_exc (Requests.RetryError (Some 503%Z)))
             None VNone
    /\ exc_status_code e = None.
Proof.
  apply (always_503_exhausts_without_status Sample.loads Sample.str_exc None
           default_base_url 30 3 GET "/projects" no_kwargs (Sample.always 503 "")).
  - lia.
  - intros i. exists (mkResponse 503 "" None). split; reflexivity.
Defined.

Lemma not_found_witness :
  exists res log,
    _request Sample.loads Sample.str_exc (__init__ None default_base_url 30 3)
      GET "/users/7" no_kwargs (Sample.always 404 "") = Some (res, log)
    /\ attempts log = 1
    /\ (forall v, Sample.loads "" = Some v ->
          res = Raises (mkExc AlgoNotFoundError "Resource not found" (Some 404%Z) v))
    /\ ("" = "" ->
          res = Raises (mkExc AlgoAPIError
                          ("Request failed: " +:+ Sample.str_exc Requests.JSONDecodeError)
                          None VNone)).
Proof.
  apply (not_found_single_attempt_but_empty_body_loses_kind Sample.loads Sample.str_exc
           None default_base_url 30 3 GET "/users/7" no_kwargs (Sample.always 404 "")
           (mkResponse 404 "" None)).
  - reflexivity.
  - lia.
  - reflexivity.
  - reflexivity.
Defined.

Lemma always_429_witness :
  exists e log,
    _request Sample.loads Sample.str_exc (__init__ None default_base_url 30 3)
      GET "/projects" no_kwargs (Sample.always 429 rate_limited_body) = Some (Raises e, log)
    /\ Z.of_nat (attempts log) = (3 + 1)%Z
    /\ kind_of e <> RateLimited
    /\ exc_status_code e = None
    /\ exc_response e = VNone.
Proof.
  apply (always_429_is_not_rate_limited Sample.loads Sample.str_exc None
           default_base_url 30 3 GET "/projects" no_kwargs
           (Sample.always 429 rate_limited_body)).
  - lia.
  - intros i. exists None. reflexivity.
Defined.

Lemma empty_success_body_witness :
  exists log,
    _request Sample.loads Sample.str_exc (__init__ None default_base_url 30 3)
      DELETE "/users/7" no_kwargs (Sample.fails_then 1 (mkResponse 204 "" None))
      = Some (Returns VNone, log).
Proof.
  apply (empty_success_body_returns_none Sample.loads Sample.str_exc None
           default_base_url 30 3 DELETE "/users/7" no_kwargs
           (Sample.fails_then 1 (mkResponse 204 "" None)) 1 (mkResponse 204 "" None)).
  - lia.
  - intros i Hi. destruct i as [|i]; [reflexivity|lia].
  - reflexivity.
  - simpl. lia.
  - reflexivity.
Defined.

Lemma optional_field_witness :
  dict_get "description"
    (payload (call_of (projects_create "demo" (Some "a demo")
                         [("template", VStr "python")])))
  = if truthy (VStr "a demo") then Some (VStr "a demo") else None.
Proof.
  apply (optional_field_sent_iff_truthy
           (projects_create "demo" (Some "a demo") [("template", VStr "python")])
           "description" (VStr "a demo")).
  - intros k Hk. simpl in Hk. destruct Hk as [<-|[<-|[]]]; reflexivity.
  - simpl. auto.
Defined.

Lemma handed_back_empty_success_witness :
  _request_in Sample.loads Sample.str_exc Requests.plain
    (__init__ None default_base_url 30 3) DELETE "/users/7" no_kwargs
    (Sample.redirects_then TemporaryRedirect307 "http://localhost:4000/api/v2/users/7"
       (mkResponse 204 "" None))
  = Some (Returns VNone,
          [Sent (outgoing (__init__ None default_base_url 30 3) DELETE "/users/7" no_kwargs);
           Sent (Requests.redirected Requests.plain
                   (outgoing (__init__ None default_base_url 30 3) DELETE "/users/7"
                      no_kwargs)
                   TemporaryRedirect307 "http://localhost:4000/api/v2/users/7")]).
Proof.
  apply (handed_back_empty_success_returns_none Sample.loads Sample.str_exc Requests.plain
           (__init__ None default_base_url 30 3) DELETE "/users/7" no_kwargs
           (Sample.redirects_then TemporaryRedirect307 "http://localhost:4000/api/v2/users/7"
              (mkResponse 204 "" None))
           (mkResponse 204 "" None)).
  - reflexivity.
  - simpl. lia.
  - reflexivity.
Defined.



(** C7, as stated, fails: with [Retry-After: 1] on the third response
    the call waits 2 seconds before the third attempt and 1 second
    before the fourth. *)
Lemma retry_after_shortens_a_later_delay :
  exists res log,
    _request Sample.loads Sample.str_exc (__init__ None default_base_url 30 4)
      GET "/projects" no_kwargs Sample.busy_with_one_hint = Some (res, log)
    /\ gaps log = [0; 2; 1; 8]%Z
    /\ exists i di dj,
         gaps log !! i = Some di /\ gaps log !! (S i) = Some dj /\ (dj < di)%Z.
Proof.
  eexists _, _. split; [reflexivity|]. split; [reflexivity|].
  exists 1, 2%Z, 1%Z. repeat split; reflexivity.
Qed.

Lemma delays_witness :
  exists res log,
    _request_in Sample.loads Sample.str_exc Requests.plain
      (__init__ None default_base_url 30 3) GET "/projects" no_kwargs
      (Sample.always 500 "") = Some (res, log)
    /\ attempts log <= S (Z.to_nat 3)
    /\ gaps log = map (delay_after (Sample.always 500 "")) (seq 0 (attempts log - 1))
    /\ (forall i j di dj,
          i <= j ->
          gaps log !! i = Some di ->
          gaps log !! j = Some dj ->
          asked_delay (Sample.always 500 "") i = 0%Z ->
          asked_delay (Sample.always 500 "") j = 0%Z ->
          (di <= dj)%Z).
Proof.
  apply (proj2 (proj2 (delays_follow_the_curve_and_retries_are_bounded
                         Sample.loads Sample.str_exc))
           Requests.plain None default_base_url 30%Z 3%Z GET "/projects" no_kwargs
           (Sample.always 500 "")).
  intros i. reflexivity.
Defined.

Example run_gaps :
  option_map (fun run => gaps (snd run))
    (_request Sample.loads Sample.str_exc (__init__ None default_base_url 30 5)
       GET "/projects" no_kwargs (Sample.always 500 ""))
  = Some [0; 2; 4; 8; 16]%Z.
Proof. reflexivity. Qed.

Example run_followed_redirect :
  option_map (fun run => (fst run, map rq_method (sent_requests (snd run)),
                          map rq_json (sent_requests (snd run))))
    (_request Sample.loads Sample.str_exc (__init__ None default_base_url 30 3)
       POST "/projects" (Requests.mkKwargs None (Some (VDict [("name", VStr "demo")])))
       (Sample.redirects_then SeeOther303 "http://localhost:4000/api/v1/projects/9"
          (mkResponse 200 "{}" None)))
  = Some (Returns (VDict []), [POST; GET], [Some (VDict [("name", VStr "demo")]); None]).
Proof. reflexivity. Qed.

Example run_always_503 :
  summary (_request Sample.loads Sample.str_exc (__init__ None default_base_url 30 3)
             GET "/projects" no_kwargs (Sample.always 503 ""))
  = Some (Raises (mkExc AlgoAPIError "Request failed: too many error responses" None VNone),
          4, [2; 4]%Z).
Proof. reflexivity. Qed.

Example run_forbidden_keeps_status :
  summary (_request Sample.loads Sample.str_exc (__init__ None default_base_url 30 3)
             GET "/projects" no_kwargs (Sample.always 403 ""))
  = Some (Raises (mkExc AlgoAPIError "API error: 403" (Some 403%Z) VNone), 1, []).
Proof. reflexivity. Qed.

Example run_not_found_with_body :
  summary (_request Sample.loads Sample.str_exc (__init__ None default_base_url 30 3)
             GET "/users/7" no_kwargs (Sample.always 404 "{}"))
  = Some (Raises (mkExc AlgoNotFoundError "Resource not found" (Some 404%Z) (VDict [])),
          1, []).
Proof. reflexivity. Qed.

Example run_timeouts_back_off :
  summary (_request Sample.loads Sample.str_exc (__init__ None default_base_url 30 8)
             GET "/projects" no_kwargs (fun _ => NoResponse ReadTimeoutError))
  = Some (Raises (mkExc AlgoAPIError "Request failed: connection error" None VNone),
          9, [2; 4; 8; 16; 32; 64; 120]%Z).
Proof. reflexivity. Qed.

Example base_url_is_stripped :
  base_url (__init__ None "http://localhost:4000/api/v1//" 30 3)
  = "http://localhost:4000/api/v1".
Proof. reflexivity. Qed.

(** * Further properties of the engine *)

Section EngineMore.
Import RetryFacts LoopFacts.

Variable json_loads : string -> option value.
Variable str_exc : Requests.RequestException -> string.

Lemma mem_Z_false_not_in (x : Z) (l : list Z) : Urllib3.mem_Z x l = false -> ~ In x l.
Proof.
  unfold Urllib3.mem_Z. intros Hf Hin.
  assert (existsb (Z.eqb x) l = true); [|congruence].
  apply existsb_exists. exists x. split; [done|]. apply Z.eqb_refl.
Qed.

(** A run of [_request] that meets no redirect is a run of the loop. *)
Lemma request_loop (ak : option string) (bu : string) (to mr : Z) (m : Method)
    (ep : string) (kw : Requests.Kwargs) (srv : server) :
  (forall i, is_redirect (srv i) = false) ->
  exists res log,
    Urllib3.urlopen_loop (S (Z.to_nat mr)) srv
      (outgoing (__init__ ak bu to mr) m ep kw) (client_retry mr []) 0 = Some (res, log)
    /\ _request json_loads str_exc (__init__ ak bu to mr) m ep kw srv
       = Some (match res with
               | Urllib3.Return r => handle str_exc (try_body json_loads Requests.plain r)
               | Urllib3.MaxRetryError why =>
                   Raises (mkExc AlgoAPIError
                             ("Request failed: " +:+ str_exc (Requests.translate why))
                             None VNone)
               | Urllib3.ReturnRedirect _ _ =>
                   Raises (mkExc AlgoAPIError
                             ("Request failed: " +:+ str_exc Requests.TooManyRedirects)
                             None VNone)
               end, log).
Proof.
  intros Hno.
  destruct (loop_total srv (outgoing (__init__ ak bu to mr) m ep kw)
              (S (Z.to_nat mr)) mr [] 0) as (res & log & Hrun & _); [lia|constructor|].
  exists res, log. split; [done|].
  apply request_one_hop; [done|].
  intros c tg ->. apply loop_redirect_last in Hrun as [_ Hlast].
  specialize (Hno (0 + (attempts log - 1))). rewrite Hlast in Hno. discriminate.
Qed.

(** An error that carries a status code carries the status of the last
    response received, which is 400 or more and outside the retry force
    list; its class follows from that status, and its body is the decoded
    body of that response, or [None] when the response had none. *)
Theorem raised_status_is_last_response
    (ak : option string) (bu : string) (to mr : Z) (m : Method) (ep : string)
    (kw : Requests.Kwargs) (srv : server) (e : AlgoException) (log : list event) (s : Z) :
  _request json_loads str_exc (__init__ ak bu to mr) m ep kw srv = Some (Raises e, log) ->
  exc_status_code e = Some s ->
  exists r,
    srv (attempts log - 1) = Received r
    /\ status_code r = s
    /\ (400 <= s)%Z
    /\ ~ In s [429; 500; 502; 503; 504]%Z
    /\ exc_class e = (if (s =? 401)%Z then AlgoAuthError
                      else if (s =? 404)%Z then AlgoNotFoundError
                      else if (s =? 400)%Z then AlgoValidationError
                      else AlgoAPIError)
    /\ (json_loads (content r) = Some (exc_response e)
        \/ content r = "" /\ exc_response e = VNone).
Proof.
  unfold _request.
  destruct (request_in_spec json_loads str_exc Requests.plain ak bu to mr m ep kw srv)
    as (res & log0 & _ & (_ & _ & _ & Hres) & ->).
  destruct res as [r|x].
  - destruct Hres as (_ & Hlast & Hf). cbn [Nat.add] in Hlast.
    intros [= He <-] Hs. exists r. split; [done|].
    apply mem_Z_false_not_in in Hf.
    revert He. unfold try_body, nonempty. rewrite !with_json_plain.
    destruct (Z.eqb_spec (status_code r) 401) as [H401|N401].
    { destruct (json_loads (content r)) as [j|] eqn:Hj; cbn; intros [= <-]; [|cbn in Hs; done].
      injection Hs as <-. rewrite H401. cbn. rewrite H401 in Hf. repeat split; auto; lia. }
    destruct (Z.eqb_spec (status_code r) 404) as [H404|N404].
    { destruct (json_loads (content r)) as [j|] eqn:Hj; cbn; intros [= <-]; [|cbn in Hs; done].
      injection Hs as <-. rewrite H404. cbn. rewrite H404 in Hf. repeat split; auto; lia. }
    destruct (Z.eqb_spec (status_code r) 400) as [H400|N400].
    { destruct (json_loads (content r)) as [j|] eqn:Hj; cbn; intros [= <-]; [|cbn in Hs; done].
      injection Hs as <-. rewrite H400. cbn. rewrite H400 in Hf. repeat split; auto; lia. }
    destruct (Z.eqb_spec (status_code r) 429) as [H429|N429].
    { exfalso. apply Hf. rewrite H429. cbn. auto. }
    destruct (Z.geb_spec (status_code r) 400) as [Hge|Hlt].
    + destruct (String.eqb_spec (content r) "") as [Hc|Hc]; cbn.
      * intros [= <-]. injection Hs as <-.
        destruct (Z.eqb_spec (status_code r) 401); [done|].
        destruct (Z.eqb_spec (status_code r) 404); [done|].
        destruct (Z.eqb_spec (status_code r) 400); [done|].
        repeat split; auto; lia.
      * destruct (json_loads (content r)) as [j|] eqn:Hj; cbn; intros [= <-]; [|cbn in Hs; done].
        injection Hs as <-.
        destruct (Z.eqb_spec (status_code r) 401); [done|].
        destruct (Z.eqb_spec (status_code r) 404); [done|].
        destruct (Z.eqb_spec (status_code r) 400); [done|].
        repeat split; auto; lia.
    + destruct (negb _); [destruct (json_loads (content r))|]; cbn; intros [= <-];
        cbn in Hs; done.
  - intros [= <- _] Hs. done.
Qed.

(** A value is returned only for a response below 400, the last one
    received: [None] when it had no body, its decoded body otherwise. *)
Theorem returned_value_is_last_response_body
    (ak : option string) (bu : string) (to mr : Z) (m : Method) (ep : string)
    (kw : Requests.Kwargs) (srv : server) (v : value) (log : list event) :
  _request json_loads str_exc (__init__ ak bu to mr) m ep kw srv = Some (Returns v, log) ->
  exists r,
    srv (attempts log - 1) = Received r
    /\ (status_code r < 400)%Z
    /\ (content r = "" /\ v = VNone
        \/ content r <> "" /\ json_loads (content r) = Some v).
Proof.
  unfold _request.
  destruct (request_in_spec json_loads str_exc Requests.plain ak bu to mr m ep kw srv)
    as (res & log0 & _ & (_ & _ & _ & Hres) & ->).
  destruct res as [r|x]; [|done].
  destruct Hres as (_ & Hlast & _). cbn [Nat.add] in Hlast.
  intros [= He <-]. exists r. split; [done|].
  revert He. unfold try_body, nonempty. rewrite !with_json_plain.
  repeat match goal with
         | |- context [(status_code r =? ?b)%Z] =>
             destruct (Z.eqb_spec (status_code r) b);
             [destruct (json_loads (content r)); cbn; done|]
         end.
  destruct (Z.geb_spec (status_code r) 400) as [Hge|Hlt].
  { destruct (negb _); [destruct (json_loads (content r))|]; cbn; done. }
  destruct (String.eqb_spec (content r) "") as [Hc|Hc]; cbn.
  - intros [= <-]. split; [lia|auto].
  - destruct (json_loads (content r)) as [j|]; cbn; [|done]. intros [= <-].
    split; [lia|auto].
Qed.

(** No response on any attempt (time-outs, refused connections): the
    call gives up after [max_retries + 1] attempts with the base error,
    which carries neither status nor body. *)
Theorem no_response_exhausts_as_base_error
    (ak : option string) (bu : string) (to mr : Z) (m : Method) (ep : string)
    (kw : Requests.Kwargs) (srv : server) :
  (0 <= mr)%Z ->
  (forall i, exists err, srv i = NoResponse err) ->
  exists e log,
    _request json_loads str_exc (__init__ ak bu to mr) m ep kw srv = Some (Raises e, log)
    /\ Z.of_nat (attempts log) = (mr + 1)%Z
    /\ exc_class e = AlgoAPIError
    /\ exc_status_code e = None
    /\ exc_response e = VNone
    /\ kind_of e = TransportFailure.
Proof.
  intros Hmr Hsrv.
  destruct (request_exhausted json_loads str_exc ak bu to mr m ep kw srv Hmr)
    as (log & Hrun & Hatt).
  { intros i. by destruct (Hsrv i) as (err & ->). }
  eexists _, log. split; [exact Hrun|]. split; [lia|]. done.
Qed.

(** A response below 400 that the session hands back, with a body that
    is not empty and is not JSON: when the decoder raises its
    [JSONDecodeError] the call raises the base error without a status
    code, although the server answered with success; when the decoder
    fails in another way ([ValueError], [RecursionError]) that exception
    leaves [_request] as it is. *)
Theorem undecodable_success_body_raises
    (env : Requests.Env) (self : AlgoSDK) (m : Method) (ep : string)
    (kw : Requests.Kwargs) (srv : server) (r : Response) (log : list event) :
  Requests.request env (session self) m (base_url self +:+ ep) (timeout self) kw srv
    = Some (inl r, log) ->
  (status_code r < 400)%Z ->
  content r <> "" ->
  json_loads (content r) = None ->
  _request_in json_loads str_exc env self m ep kw srv
    = Some (if Requests.loads_crashes env (content r) then Escapes
            else Raises (mkExc AlgoAPIError
                           ("Request failed: " +:+ str_exc Requests.JSONDecodeError)
                           None VNone), log).
Proof.
  intros Hrun Hst Hc Hj. unfold _request_in. rewrite Hrun. f_equal. f_equal.
  unfold try_body, with_json, Requests.response_json, nonempty. rewrite Hj.
  repeat match goal with
         | |- context [(status_code r =? ?b)%Z] =>
             destruct (Z.eqb_spec (status_code r) b); [lia|]
         end.
  destruct (Z.geb_spec (status_code r) 400); [lia|].
  destruct (String.eqb_spec (content r) ""); [done|]. cbn [negb].
  by destruct (Requests.loads_crashes env (content r)).
Qed.

(** An error response that is not retried and whose body decodes: the
    error raised carries that status and that body; 401, 404 and 400 get
    their own class, every other status the base class with the message
    ["API error: <status>"]. *)
Theorem unretried_error_is_reported_with_status_and_body
    (ak : option string) (bu : string) (to mr : Z) (m : Method) (ep : string)
    (kw : Requests.Kwargs) (srv : server) (k : nat) (r : Response) (v : value) :
  (Z.of_nat k <= mr)%Z ->
  (forall i, i < k -> forced (srv i) = true) ->
  srv k = Received r ->
  unretried r = true ->
  (400 <= status_code r)%Z ->
  json_loads "" = None ->
  json_loads (content r) = Some v ->
  exists e log,
    _request json_loads str_exc (__init__ ak bu to mr) m ep kw srv = Some (Raises e, log)
    /\ attempts log = S k
    /\ exc_status_code e = Some (status_code r)
    /\ exc_response e = v
    /\ (status_code r = 401%Z ->
          exc_class e = AlgoAuthError /\ message e = "Authentication failed")
    /\ (status_code r = 404%Z ->
          exc_class e = AlgoNotFoundError /\ message e = "Resource not found")
    /\ (status_code r = 400%Z ->
          exc_class e = AlgoValidationError /\ message e = "Validation failed")
    /\ (~ In (status_code r) [401; 404; 400]%Z ->
          exc_class e = AlgoAPIError
          /\ message e = "API error: " +:+ str_int (status_code r)).
Proof.
  intros Hk Hfail Hlast Hun Hge Hempty Hj.
  destruct (request_recovers json_loads str_exc ak bu to mr m ep kw srv k r)
    as (log & Hrun & Hatt); [done|done|done|done|].
  assert (Hc : nonempty (content r) = true).
  { unfold nonempty. destruct (String.eqb_spec (content r) "") as [Hc|]; [|done].
    rewrite Hc, Hempty in Hj. discriminate. }
  assert (H429 : status_code r <> 429%Z).
  { intros H. unfold unretried in Hun. rewrite H in Hun. discriminate Hun. }
  rewrite Hrun. unfold try_body. rewrite !with_json_plain, Hj, Hc.
  destruct (Z.eqb_spec (status_code r) 401) as [E|N1].
  { eexists _, log. split; [reflexivity|]. cbn. rewrite E.
    repeat split; try done; try lia;
      try (intros Hn; exfalso; apply Hn; cbn; auto). }
  destruct (Z.eqb_spec (status_code r) 404) as [E|N2].
  { eexists _, log. split; [reflexivity|]. cbn. rewrite E.
    repeat split; try done; try lia;
      try (intros Hn; exfalso; apply Hn; cbn; auto). }
  destruct (Z.eqb_spec (status_code r) 400) as [E|N3].
  { eexists _, log. split; [reflexivity|]. cbn. rewrite E.
    repeat split; try done; try lia;
      try (intros Hn; exfalso; apply Hn; cbn; auto). }
  destruct (Z.eqb_spec (status_code r) 429) as [E|_]; [done|].
  destruct (Z.geb_spec (status_code r) 400) as [_|Hlt]; [|lia].
  eexists _, log. split; [reflexivity|]. cbn. repeat split; try done; try lia.
Qed.

(** An error response that is not retried, is none of 401, 404, 400, and
    has no body: the base error carries the status, and [None] for the
    body. *)
Theorem bodiless_error_keeps_status
    (ak : option string) (bu : string) (to mr : Z) (m : Method) (ep : string)
    (kw : Requests.Kwargs) (srv : server) (k : nat) (r : Response) :
  (Z.of_nat k <= mr)%Z ->
  (forall i, i < k -> forced (srv i) = true) ->
  srv k = Received r ->
  unretried r = true ->
  (400 <= status_code r)%Z ->
  ~ In (status_code r) [401; 404; 400]%Z ->
  content r = "" ->
  exists log,
    _request json_loads str_exc (__init__ ak bu to mr) m ep kw srv
      = Some (Raises (mkExc AlgoAPIError ("API error: " +:+ str_int (status_code r))
                        (Some (status_code r)) VNone), log)
    /\ attempts log = S k.
Proof.
  intros Hk Hfail Hlast Hun Hge Hnot Hc.
  destruct (request_recovers json_loads str_exc ak bu to mr m ep kw srv k r)
    as (log & Hrun & Hatt); [done|done|done|done|].
  assert (H429 : status_code r <> 429%Z).
  { intros H. unfold unretried in Hun. rewrite H in Hun. discriminate Hun. }
  exists log. split; [|done]. rewrite Hrun. f_equal. f_equal.
  unfold try_body, nonempty. rewrite Hc.
  cbn [In] in Hnot.
  repeat match goal with
         | |- context [(status_code r =? ?b)%Z] =>
             destruct (Z.eqb_spec (status_code r) b); [lia|]
         end.
  destruct (Z.geb_spec (status_code r) 400); [reflexivity|lia].
Qed.

End EngineMore.

Section Schedule.
Import RetryFacts LoopFacts.

Variable json_loads : string -> option value.
Variable str_exc : Requests.RequestException -> string.


(** When every response carries a non-zero [Retry-After], no back-off
    sleep is taken: between two attempts the call sleeps exactly as long
    as the earlier response asked. *)
Theorem retry_after_replaces_backoff
    (ak : option string) (bu : string) (to mr : Z) (m : Method) (ep : string)
    (kw : Requests.Kwargs) (srv : server) :
  (forall i, exists r d, srv i = Received r /\ retry_after r = Some d /\ d <> 0%Z) ->
  exists res log,
    _request json_loads str_exc (__init__ ak bu to mr) m ep kw srv = Some (res, log)
    /\ backoff_delays log = []
    /\ retry_after_delays log = map (asked_delay srv) (seq 0 (attempts log - 1)).
Proof.
  intros Hsrv.
  destruct (request_loop json_loads str_exc ak bu to mr m ep kw srv)
    as (res & log & Hloop & Hrun).
  { intros i. by destruct (Hsrv i) as (r & d & -> & _). }
  apply (loop_retry_after_only _ _ _ Hsrv) in Hloop as (_ & Hb & Hra).
  eauto.
Qed.

(** With [max_retries] at 0 or below, a call whose request is sent and
    whose first attempt is not answered by a redirect to follow makes
    exactly one attempt, whatever it meets. *)
Theorem no_retries_means_one_attempt
    (env : Requests.Env) (ak : option string) (bu : string) (to mr : Z) (m : Method)
    (ep : string) (kw : Requests.Kwargs) (srv : server) :
  (mr <= 0)%Z ->
  Requests.refuses env (outgoing_in env (__init__ ak bu to mr) m ep kw) = None ->
  is_redirect (srv 0) = false ->
  exists res log,
    _request_in json_loads str_exc env (__init__ ak bu to mr) m ep kw srv = Some (res, log)
    /\ attempts log = 1.
Proof.
  intros Hmr Hsent Hno.
  destruct (loop_total srv (outgoing_in env (__init__ ak bu to mr) m ep kw)
              (S (Z.to_nat mr)) mr [] 0) as (res & log & Hrun & Hatt & _);
    [lia|constructor|].
  assert (Hone : attempts log = 1) by lia.
  assert (Hnr : forall c tg, res <> Urllib3.ReturnRedirect c tg).
  { intros c tg ->. apply loop_redirect_last in Hrun as [_ Hlast].
    rewrite Hone in Hlast. cbn in Hlast. rewrite Hlast in Hno. discriminate. }
  rewrite (request_in_one_hop json_loads str_exc env ak bu to mr m ep kw srv res log
             Hsent Hrun Hnr).
  eexists _, log. split; [reflexivity|exact Hone].
Qed.

(** Every back-off sleep of a call lasts between 2 and 120 seconds, and
    there are at most [attempts - 2] of them: the first retry follows the
    first failure at once. *)
Theorem backoff_sleeps_are_bounded
    (ak : option string) (bu : string) (to mr : Z) (m : Method) (ep : string)
    (kw : Requests.Kwargs) (srv : server) :
  exists res log,
    _request json_loads str_exc (__init__ ak bu to mr) m ep kw srv = Some (res, log)
    /\ Forall (fun d => 2 <= d <= 120)%Z (backoff_delays log)
    /\ length (backoff_delays log) <= attempts log - 2.
Proof.
  unfold _request.
  destruct (request_in_spec json_loads str_exc Requests.plain ak bu to mr m ep kw srv)
    as (res & log & _ & (_ & Hall & Hcount & _) & Hrun).
  eauto.
Qed.

(** One redirect after the other: each of them is followed at once,
    without any retry, until 30 have been followed; the redirect that
    answers the 31st request makes the call raise the base error, without
    status code or body. *)
Theorem endless_redirects_give_up
    (ak : option string) (bu : string) (to mr : Z) (m : Method) (ep : string)
    (kw : Requests.Kwargs) (srv : server) :
  (forall i, is_redirect (srv i) = true) ->
  exists log,
    _request json_loads str_exc (__init__ ak bu to mr) m ep kw srv
      = Some (Raises (mkExc AlgoAPIError
                        ("Request failed: " +:+ str_exc Requests.TooManyRedirects)
                        None VNone), log)
    /\ attempts log = 31
    /\ backoff_delays log = [].
Proof.
  intros Hsrv.
  assert (Hall : forall budget req n,
    exists log,
      Requests.session_send budget Requests.plain (session (__init__ ak bu to mr)) srv req n
        = Some (inr Requests.TooManyRedirects, log)
      /\ attempts log = S budget /\ backoff_delays log = []).
  { induction budget as [|budget IH]; intros req n;
      rewrite (session_send_eq Requests.plain),
        (send_loop Requests.plain _ mr srv (client_session ak bu to mr));
      cbn [Requests.refuses Requests.plain]; rewrite loop_step; cbv zeta;
      pose proof (Hsrv n) as Hn; destruct (srv n) as [e|r|c tg]; try discriminate Hn;
      cbn [will_retry].
    - by exists [Sent req].
    - destruct (IH (Requests.redirected Requests.plain req c tg) (n + attempts [Sent req]))
        as (log & -> & Hatt & Hb).
      exists ([Sent req] ++ log). split; [done|].
      rewrite attempts_app, backoff_delays_app, Hatt, Hb. done. }
  unfold _request. rewrite request_in_session.
  destruct (Hall Requests.DEFAULT_REDIRECT_LIMIT
              (outgoing (__init__ ak bu to mr) m ep kw) 0) as (log & Hrun & Hatt & Hb).
  exists log. split; [|done].
  change (outgoing_in Requests.plain (__init__ ak bu to mr) m ep kw)
    with (outgoing (__init__ ak bu to mr) m ep kw).
  by rewrite Hrun.
Qed.

End Schedule.

(** * Further properties of the constructor and the call-sites *)

Lemma rstrip_slash_spec (s : string) :
  (exists n, s = rstrip_slash s +:+ slashes n)
  /\ last_char (rstrip_slash s) <> Some "/"%char.
Proof.
  induction s as [|c s [[n Hn] Hlast]]; cbn [rstrip_slash].
  - split; [by exists 0|done].
  - destruct (rstrip_slash s) as [|a t] eqn:Hr.
    + destruct (Ascii.eqb_spec c "/"%char) as [->|Hc].
      * split; [|done]. exists (S n). cbn. by rewrite Hn at 1.
      * split; [|cbn; congruence]. exists n. cbn. by rewrite Hn at 1.
    + split; [|exact Hlast]. exists n. cbn. rewrite Hn at 1. reflexivity.
Qed.

Lemma rstrip_slash_fixed (s : string) :
  last_char s <> Some "/"%char -> rstrip_slash s = s.
Proof.
  induction s as [|c s IH]; [done|]. intros Hlast. cbn [rstrip_slash].
  destruct s as [|a t].
  - cbn in *. destruct (Ascii.eqb_spec c "/"%char) as [->|]; [done|reflexivity].
  - rewrite IH by exact Hlast. reflexivity.
Qed.

(** The base URL of a client is the one given less its trailing slashes:
    it never ends in a slash, and stripping it again changes nothing. *)
Theorem base_url_never_ends_in_slash
    (ak : option string) (bu : string) (to mr : Z) :
  let b := base_url (__init__ ak bu to mr) in
  (exists n, bu = b +:+ slashes n)
  /\ last_char b <> Some "/"%char
  /\ base_url (__init__ ak b to mr) = b.
Proof.
  cbn. destruct (rstrip_slash_spec bu) as [Hn Hlast].
  split; [done|]. split; [done|]. by apply rstrip_slash_fixed.
Qed.

Lemma authorization_of_key (ak : option string) (bu : string) (to mr : Z) :
  let h := Requests.headers (session (__init__ ak bu to mr)) in
  h !! "Authorization"
    = match ak with
      | Some k => if String.eqb k "" then None else Some ("Bearer " +:+ k)
      | None => None
      end
  /\ h !! "Content-Type" = Some "application/json".
Proof.
  cbn. destruct ak as [k|]; [destruct (String.eqb k "")|]; cbn [negb].
  - split; reflexivity.
  - split; [by rewrite lookup_insert_eq|].
    rewrite lookup_insert_ne by done. reflexivity.
  - split; reflexivity.
Qed.

(** Across all resource operations: a GET or DELETE call never has a
    JSON body, a POST or PUT call never has query parameters, and every
    endpoint starts with a slash. *)
Theorem body_and_query_follow_the_method (op : Op) :
  let c := call_of op in
  match c_method c with
  | GET | DELETE => Requests.json (c_kwargs c) = None
  | POST | PUT => Requests.params (c_kwargs c) = None
  end
  /\ exists rest, c_endpoint c = String "/"%char rest.
Proof.
  destruct op; (split; [reflexivity|eexists; reflexivity]).
Qed.

Lemma dict_get_absent (k : string) (d : dict) :
  ~ In k (map fst d) -> dict_get k d = None.
Proof.
  induction d as [|[k' v'] d IH]; cbn; [done|]. intros Hn.
  destruct (String.eqb_spec k k') as [->|_]; [tauto|]. apply IH. tauto.
Qed.

Lemma dict_get_update_in (k : string) (v : value) (other : dict) :
  forall d : dict,
    NoDup (map fst other) -> In (k, v) other ->
    dict_get k (dict_update d other) = Some v.
Proof.
  induction other as [|[k0 v0] other IH]; intros d Hnd Hin; [done|].
  cbn in Hnd. apply NoDup_cons in Hnd as [Hfresh Hnd].
  destruct Hin as [[= -> ->]|Hin].
  - change (dict_update d ((k, v) :: other)) with (dict_update (dict_set k v d) other).
    rewrite dict_get_update_unbound.
    + apply dict_get_set_eq.
    + apply dict_get_absent. intros H. apply Hfresh. by apply list_elem_of_In.
  - change (dict_update d ((k0, v0) :: other)) with (dict_update (dict_set k0 v0 d) other).
    by apply IH.
Qed.

(** [projects.create] always sends the project name, and every extra
    keyword argument reaches the body under its own key with its own
    value, [None] included. *)
Theorem projects_create_sends_name_and_every_kwarg
    (name : string) (description : option string) (kwargs : dict) :
  kwargs_bound (projects_create name description kwargs) ->
  NoDup (map fst kwargs) ->
  let body := payload (call_of (projects_create name description kwargs)) in
  dict_get "name" body = Some (VStr name)
  /\ forall k v, In (k, v) kwargs -> dict_get k body = Some v.
Proof.
  intros Hkw Hnd. cbn [call_of]. unfold ProjectsAPI.create, payload.
  cbn [c_kwargs with_json_body Requests.json]. split.
  - rewrite dict_get_update_unbound by (apply Hkw; cbn; auto).
    unfold set_if. destruct (truthy (of_str description)); reflexivity.
  - intros k v Hin. by apply dict_get_update_in.
Qed.

Section CallSites.
Import RetryFacts.

Variable validate : Model -> dict -> option dict.
Variable json_loads : string -> option value.
Variable str_exc : Requests.RequestException -> string.

(** Whatever the API key: when [requests] finds no credentials for the
    URL of the call (neither in [netrc] nor in the URL itself) and no
    attempt is answered by a redirect to follow, every attempt of every
    resource operation carries [Authorization: Bearer <key>] when the key
    is a non-empty string and no [Authorization] header otherwise -- an
    empty key counts as no key -- and always [Content-Type:
    application/json]. A request that [requests] refuses, for a header
    value with a line feed say, makes no attempt at all. *)
Theorem authorization_follows_api_key
    (env : Requests.Env) (ak : option string) (bu : string) (to mr : Z) (op : Op)
    (srv : server) :
  let url := rstrip_slash bu +:+ c_endpoint (call_of op) in
  Requests.netrc_auth env url = None ->
  Requests.url_auth env url = None ->
  (forall i, is_redirect (srv i) = false) ->
  exists res log,
    perform_in json_loads str_exc env (__init__ ak bu to mr) op srv = Some (res, log)
    /\ Forall (fun rq =>
         rq_headers rq !! "Authorization"
           = match ak with
             | Some k => if String.eqb k "" then None else Some ("Bearer " +:+ k)
             | None => None
             end
         /\ rq_headers rq !! "Content-Type" = Some "application/json")
       (sent_requests log)
    /\ (Requests.refuses env
          (outgoing_in env (__init__ ak bu to mr) (c_method (call_of op))
             (c_endpoint (call_of op)) (c_kwargs (call_of op))) <> None ->
        log = []).
Proof.
  intros url Hn Hu Hno. unfold perform_in.
  destruct (request_in_no_redirect json_loads str_exc env ak bu to mr
              (c_method (call_of op)) (c_endpoint (call_of op)) (c_kwargs (call_of op))
              srv Hno) as (res & log & Hrun & _ & Hsent & _ & Href).
  exists res, log. split; [done|]. split; [|done]. rewrite Hsent.
  apply Forall_replicate. rewrite outgoing_in_headers by done.
  apply authorization_of_key.
Qed.

(** A response below 400, after retried attempts that the budget covers,
    makes [perform] return: [None] for an empty body, the decoded body
    otherwise. *)
Lemma perform_success (self_key : option string) (bu : string) (to mr : Z) (op : Op)
    (srv : server) (k : nat) (r : Response) (v : value) :
  (Z.of_nat k <= mr)%Z ->
  (forall i, i < k -> forced (srv i) = true) ->
  srv k = Received r ->
  (status_code r < 400)%Z ->
  (content r = "" /\ v = VNone \/ content r <> "" /\ json_loads (content r) = Some v) ->
  exists log,
    perform json_loads str_exc (__init__ self_key bu to mr) op srv = Some (Returns v, log)
    /\ attempts log = S k.
Proof.
  intros Hk Hfail Hlast Hst Hbody. unfold perform.
  destruct (request_recovers json_loads str_exc self_key bu to mr
              (c_method (call_of op)) (c_endpoint (call_of op)) (c_kwargs (call_of op))
              srv k r) as (log & Hrun & Hatt);
    [done|done|done|apply below_400_unretried; lia|].
  exists log. split; [|done]. rewrite Hrun. f_equal. f_equal.
  unfold try_body, nonempty. rewrite !with_json_plain.
  repeat match goal with
         | |- context [(status_code r =? ?b)%Z] =>
             destruct (Z.eqb_spec (status_code r) b); [lia|]
         end.
  destruct (Z.geb_spec (status_code r) 400); [lia|].
  destruct Hbody as [[-> ->]|[Hc Hj]]; [reflexivity|].
  rewrite Hj. destruct (String.eqb_spec (content r) ""); done.
Qed.

(** What [_request] makes of a response below 400 that the session hands
    back: [None] for an empty body, the decoded body otherwise. *)
Lemma perform_in_success (env : Requests.Env) (self : AlgoSDK) (op : Op) (srv : server)
    (r : Response) (log : list event) (v : value) :
  Requests.request env (session self) (c_method (call_of op))
    (base_url self +:+ c_endpoint (call_of op)) (timeout self) (c_kwargs (call_of op)) srv
    = Some (inl r, log) ->
  (status_code r < 400)%Z ->
  (content r = "" /\ v = VNone
   \/ content r <> "" /\ Requests.loads_crashes env (content r) = false
      /\ json_loads (content r) = Some v) ->
  perform_in json_loads str_exc env self op srv = Some (Returns v, log).
Proof.
  intros Hrun Hst Hbody. unfold perform_in, _request_in. rewrite Hrun. f_equal. f_equal.
  unfold try_body, with_json, Requests.response_json, nonempty.
  repeat match goal with
         | |- context [(status_code r =? ?b)%Z] =>
             destruct (Z.eqb_spec (status_code r) b); [lia|]
         end.
  destruct (Z.geb_spec (status_code r) 400); [lia|].
  destruct Hbody as [[-> ->]|(Hc & Hl & Hj)]; [reflexivity|].
  rewrite Hl, Hj. destruct (String.eqb_spec (content r) ""); done.
Qed.

(** The [delete] methods return [None] on any answer below 400 that the
    session hands back, with or without a body: they never look at it.
    The answer is the one that follows the last redirect, if redirects
    were followed. *)
Theorem delete_returns_none
    (env : Requests.Env) (self : AlgoSDK) (op : Op) (srv : server)
    (r : Response) (log : list event) :
  returns_of op = ReturnsNone ->
  Requests.request env (session self) (c_method (call_of op))
    (base_url self +:+ c_endpoint (call_of op)) (timeout self) (c_kwargs (call_of op)) srv
    = Some (inl r, log) ->
  (status_code r < 400)%Z ->
  (content r = ""
   \/ Requests.loads_crashes env (content r) = false /\ is_Some (json_loads (content r))) ->
  resource_call_in validate json_loads str_exc env self op srv
    = Some (OpReturns (RValue VNone), log).
Proof.
  intros Hret Hrun Hst Hbody.
  assert (exists v, content r = "" /\ v = VNone
                    \/ content r <> "" /\ Requests.loads_crashes env (content r) = false
                       /\ json_loads (content r) = Some v) as [v Hv].
  { destruct (String.eqb_spec (content r) "") as [Hc|Hc]; [by exists VNone; left|].
    destruct Hbody as [|[Hl [v Hv]]]; [done|]. exists v. by right. }
  unfold resource_call_in.
  rewrite (perform_in_success env self op srv r log v Hrun Hst Hv).
  cbn [finish]. rewrite Hret. reflexivity.
Qed.

(** Every method that reads the answer fails on a response below 400
    that the session hands back without a body (a 204, say):
    subscripting [None] raises [TypeError], which is not an
    [AlgoAPIError]. *)
Theorem empty_success_body_is_a_type_error
    (env : Requests.Env) (self : AlgoSDK) (op : Op) (srv : server)
    (r : Response) (log : list event) :
  returns_of op <> ReturnsNone ->
  Requests.request env (session self) (c_method (call_of op))
    (base_url self +:+ c_endpoint (call_of op)) (timeout self) (c_kwargs (call_of op)) srv
    = Some (inl r, log) ->
  (status_code r < 400)%Z ->
  content r = "" ->
  resource_call_in validate json_loads str_exc env self op srv
    = Some (OpFails TypeError, log).
Proof.
  intros Hret Hrun Hst Hc. unfold resource_call_in.
  rewrite (perform_in_success env self op srv r log VNone Hrun Hst) by (by left).
  cbn [finish]. destruct (returns_of op); [reflexivity|done|reflexivity|reflexivity].
Qed.

(** The methods that return [response["data"]] hand back exactly the
    ["data"] member of the decoded body, whatever it is, and raise
    [KeyError] when the body is an object without one. *)
Theorem data_methods_return_the_data_member
    (ak : option string) (bu : string) (to mr : Z) (op : Op) (srv : server)
    (k : nat) (r : Response) (d : dict) :
  returns_of op = ReturnsData ->
  (Z.of_nat k <= mr)%Z ->
  (forall i, i < k -> forced (srv i) = true) ->
  srv k = Received r ->
  (status_code r < 400)%Z ->
  content r <> "" ->
  json_loads (content r) = Some (VDict d) ->
  exists log,
    resource_call validate json_loads str_exc (__init__ ak bu to mr) op srv
      = Some (match dict_get "data" d with
              | Some x => OpReturns (RValue x)
              | None => OpFails (KeyError "data")
              end, log).
Proof.
  intros Hret Hk Hfail Hlast Hst Hc Hj.
  destruct (perform_success ak bu to mr op srv k r (VDict d)) as (log & Hrun & _);
    try done; [by right|].
  exists log. unfold resource_call. rewrite Hrun. cbn [finish]. rewrite Hret. cbn.
  destruct (dict_get "data" d); reflexivity.
Qed.

(** The methods that return a model build it from the ["data"] member:
    the instance when the member is an object that validates,
    [ValidationError] when it is an object that does not. *)
Theorem model_methods_build_from_the_data_member
    (ak : option string) (bu : string) (to mr : Z) (op : Op) (srv : server)
    (k : nat) (r : Response) (d fields : dict) (m : Model) :
  returns_of op = ReturnsModel m ->
  (Z.of_nat k <= mr)%Z ->
  (forall i, i < k -> forced (srv i) = true) ->
  srv k = Received r ->
  (status_code r < 400)%Z ->
  content r <> "" ->
  json_loads (content r) = Some (VDict d) ->
  dict_get "data" d = Some (VDict fields) ->
  exists log,
    resource_call validate json_loads str_exc (__init__ ak bu to mr) op srv
      = Some (match validate m fields with
              | Some inst => OpReturns (RModel m inst)
              | None => OpFails (ValidationError m)
              end, log).
Proof.
  intros Hret Hk Hfail Hlast Hst Hc Hj Hdata.
  destruct (perform_success ak bu to mr op srv k r (VDict d)) as (log & Hrun & _);
    try done; [by right|].
  exists log. unfold resource_call. rewrite Hrun. cbn [finish]. rewrite Hret. cbn.
  rewrite Hdata. cbn.
  destruct (validate m fields); reflexivity.
Qed.

Lemma construct_all_valid (m : Model) (us : list value) (items : list dict) :
  Forall2 (fun u inst => exists du, u = VDict du /\ validate m du = Some inst) us items ->
  construct_all validate m us = inl items.
Proof.
  induction 1 as [|u inst us items (du & -> & Hv) _ IH]; cbn; [done|].
  rewrite Hv. cbn. rewrite IH. reflexivity.
Qed.

(** The list methods validate every item of ["data"] first and look up
    ["pagination"] afterwards: with a list of valid items they return the
    instances together with the pagination member, and raise [KeyError]
    when the body has no ["pagination"]. *)
Theorem list_methods_need_data_and_pagination
    (ak : option string) (bu : string) (to mr : Z) (op : Op) (srv : server)
    (k : nat) (r : Response) (d : dict) (key : string) (m : Model)
    (us : list value) (items : list dict) :
  returns_of op = ReturnsListing key m ->
  (Z.of_nat k <= mr)%Z ->
  (forall i, i < k -> forced (srv i) = true) ->
  srv k = Received r ->
  (status_code r < 400)%Z ->
  content r <> "" ->
  json_loads (content r) = Some (VDict d) ->
  dict_get "data" d = Some (VList us) ->
  Forall2 (fun u inst => exists du, u = VDict du /\ validate m du = Some inst) us items ->
  exists log,
    resource_call validate json_loads str_exc (__init__ ak bu to mr) op srv
      = Some (match dict_get "pagination" d with
              | Some p => OpReturns (RListing key m items p)
              | None => OpFails (KeyError "pagination")
              end, log).
Proof.
  intros Hret Hk Hfail Hlast Hst Hc Hj Hdata Hitems.
  destruct (perform_success ak bu to mr op srv k r (VDict d)) as (log & Hrun & _);
    try done; [by right|].
  exists log. unfold resource_call. rewrite Hrun. cbn [finish]. rewrite Hret. cbn.
  rewrite Hdata. cbn.
  rewrite (construct_all_valid _ _ _ Hitems). cbn.
  destruct (dict_get "pagination" d); reflexivity.
Qed.

End CallSites.

(** ** More concrete runs *)

Lemma raised_status_witness :
  exists r,
    Sample.always 403 "{}" (attempts [Sent (outgoing (__init__ None default_base_url 30 3)
                                              GET "/projects" no_kwargs)] - 1) = Received r
    /\ status_code r = 403%Z
    /\ (400 <= 403)%Z
    /\ ~ In 403%Z [429; 500; 502; 503; 504]%Z
    /\ exc_class (mkExc AlgoAPIError "API error: 403" (Some 403%Z) (VDict []))
       = (if (403 =? 401)%Z then AlgoAuthError
          else if (403 =? 404)%Z then AlgoNotFoundError
          else if (403 =? 400)%Z then AlgoValidationError
          else AlgoAPIError)
    /\ (Sample.loads (content r)
          = Some (exc_response (mkExc AlgoAPIError "API error: 403" (Some 403%Z) (VDict [])))
        \/ content r = ""
           /\ exc_response (mkExc AlgoAPIError "API error: 403" (Some 403%Z) (VDict []))
              = VNone).
Proof.
  apply (raised_status_is_last_response Sample.loads Sample.str_exc None default_base_url
           30 3 GET "/projects" no_kwargs (Sample.always 403 "{}")
           (mkExc AlgoAPIError "API error: 403" (Some 403%Z) (VDict []))
           [Sent (outgoing (__init__ None default_base_url 30 3) GET "/projects" no_kwargs)]
           403%Z).
  - reflexivity.
  - reflexivity.
Defined.

Lemma returned_value_witness :
  exists r,
    Sample.fails_then 1 (mkResponse 200 "{}" None) (2 - 1) = Received r
    /\ (status_code r < 400)%Z
    /\ (content r = "" /\ VDict [] = VNone
        \/ content r <> "" /\ Sample.loads (content r) = Some (VDict [])).
Proof.
  apply (returned_value_is_last_response_body Sample.loads Sample.str_exc None
           default_base_url 30 3 GET "/projects" no_kwargs
           (Sample.fails_then 1 (mkResponse 200 "{}" None)) (VDict [])
           [Sent (outgoing (__init__ None default_base_url 30 3) GET "/projects" no_kwargs);
            Sent (outgoing (__init__ None default_base_url 30 3) GET "/projects" no_kwargs)]).
  reflexivity.
Defined.

Lemma no_response_witness :
  exists e log,
    _request Sample.loads Sample.str_exc (__init__ None default_base_url 30 3)
      GET "/projects" no_kwargs (fun _ => NoResponse ReadTimeoutError)
      = Some (Raises e, log)
    /\ Z.of_nat (attempts log) = (3 + 1)%Z
    /\ exc_class e = AlgoAPIError
    /\ exc_status_code e = None
    /\ exc_response e = VNone
    /\ kind_of e = TransportFailure.
Proof.
  apply (no_response_exhausts_as_base_error Sample.loads Sample.str_exc None
           default_base_url 30 3 GET "/projects" no_kwargs
           (fun _ => NoResponse ReadTimeoutError)).
  - lia.
  - intros i. by exists ReadTimeoutError.
Defined.

Lemma undecodable_success_witness :
  _request_in Sample.loads Sample.str_exc Requests.plain
    (__init__ None default_base_url 30 3) GET "/projects" no_kwargs
    (Sample.always 200 "<html>")
  = Some (if Requests.loads_crashes Requests.plain (content (mkResponse 200 "<html>" None))
          then Escapes
          else Raises (mkExc AlgoAPIError
                         ("Request failed: " +:+ Sample.str_exc Requests.JSONDecodeError)
                         None VNone),
          [Sent (outgoing (__init__ None default_base_url 30 3) GET "/projects" no_kwargs)]).
Proof.
  apply (undecodable_success_body_raises Sample.loads Sample.str_exc Requests.plain
           (__init__ None default_base_url 30 3) GET "/projects" no_kwargs
           (Sample.always 200 "<html>") (mkResponse 200 "<html>" None)).
  - reflexivity.
  - simpl. lia.
  - discriminate.
  - reflexivity.
Defined.

Lemma unretried_error_witness :
  exists e log,
    _request Sample.loads Sample.str_exc (__init__ None default_base_url 30 3)
      PUT "/users/7" no_kwargs (Sample.always 400 "{}") = Some (Raises e, log)
    /\ attempts log = 1
    /\ exc_status_code e = Some 400%Z
    /\ exc_response e = VDict []
    /\ (400%Z = 401%Z ->
          exc_class e = AlgoAuthError /\ message e = "Authentication failed")
    /\ (400%Z = 404%Z ->
          exc_class e = AlgoNotFoundError /\ message e = "Resource not found")
    /\ (400%Z = 400%Z ->
          exc_class e = AlgoValidationError /\ message e = "Validation failed")
    /\ (~ In 400%Z [401; 404; 400]%Z ->
          exc_class e = AlgoAPIError /\ message e = "API error: " +:+ str_int 400).
Proof.
  apply (unretried_error_is_reported_with_status_and_body Sample.loads Sample.str_exc None
           default_base_url 30 3 PUT "/users/7" no_kwargs (Sample.always 400 "{}")
           0 (mkResponse 400 "{}" None) (VDict [])).
  - lia.
  - intros i Hi. lia.
  - reflexivity.
  - reflexivity.
  - simpl. lia.
  - reflexivity.
  - reflexivity.
Defined.

Lemma bodiless_error_witness :
  exists log,
    _request Sample.loads Sample.str_exc (__init__ None default_base_url 30 3)
      GET "/billing" no_kwargs (Sample.always 403 "")
      = Some (Raises (mkExc AlgoAPIError ("API error: " +:+ str_int 403)
                        (Some 403%Z) VNone), log)
    /\ attempts log = 1.
Proof.
  apply (bodiless_error_keeps_status Sample.loads Sample.str_exc None
           default_base_url 30 3 GET "/billing" no_kwargs (Sample.always 403 "")
           0 (mkResponse 403 "" None)).
  - lia.
  - intros i Hi. lia.
  - reflexivity.
  - reflexivity.
  - simpl. lia.
  - simpl. lia.
  - reflexivity.
Defined.


Lemma retry_after_witness :
  exists res log,
    _request Sample.loads Sample.str_exc (__init__ None default_base_url 30 3)
      GET "/projects" no_kwargs (fun _ => Received (mkResponse 503 "" (Some 7%Z)))
      = Some (res, log)
    /\ backoff_delays log = []
    /\ retry_after_delays log
       = map (asked_delay (fun _ => Received (mkResponse 503 "" (Some 7%Z))))
           (seq 0 (attempts log - 1)).
Proof.
  apply (retry_after_replaces_backoff Sample.loads Sample.str_exc None
           default_base_url 30 3 GET "/projects" no_kwargs
           (fun _ => Received (mkResponse 503 "" (Some 7%Z)))).
  intros i. exists (mkResponse 503 "" (Some 7%Z)), 7%Z. split; [reflexivity|].
  split; [reflexivity|lia].
Defined.

Lemma no_retries_witness :
  exists res log,
    _request_in Sample.loads Sample.str_exc Requests.plain
      (__init__ None default_base_url 30 0) GET "/projects" no_kwargs
      (Sample.always 503 "") = Some (res, log)
    /\ attempts log = 1.
Proof.
  apply (no_retries_means_one_attempt Sample.loads Sample.str_exc Requests.plain None
           default_base_url 30 0 GET "/projects" no_kwargs (Sample.always 503 "")).
  - lia.
  - reflexivity.
  - reflexivity.
Defined.

Lemma endless_redirects_witness :
  exists log,
    _request Sample.loads Sample.str_exc (__init__ None default_base_url 30 3)
      GET "/projects" no_kwargs
      (fun _ => Redirect Found302 "http://localhost:4000/api/v1/projects")
      = Some (Raises (mkExc AlgoAPIError
                        ("Request failed: " +:+ Sample.str_exc Requests.TooManyRedirects)
                        None VNone), log)
    /\ attempts log = 31
    /\ backoff_delays log = [].
Proof.
  apply (endless_redirects_give_up Sample.loads Sample.str_exc None default_base_url 30 3
           GET "/projects" no_kwargs
           (fun _ => Redirect Found302 "http://localhost:4000/api/v1/projects")).
  intros i. reflexivity.
Defined.

Lemma authorization_witness :
  exists res log,
    perform_in Sample.loads Sample.str_exc Requests.plain
      (__init__ (Some "k-123") default_base_url 30 3) (projects_get 4)
      (Sample.always 503 "") = Some (res, log)
    /\ Forall (fun rq =>
         rq_headers rq !! "Authorization"
           = (if String.eqb "k-123" "" then None else Some ("Bearer " +:+ "k-123"))
         /\ rq_headers rq !! "Content-Type" = Some "application/json")
       (sent_requests log)
    /\ (Requests.refuses Requests.plain
          (outgoing_in Requests.plain (__init__ (Some "k-123") default_base_url 30 3)
             (c_method (call_of (projects_get 4))) (c_endpoint (call_of (projects_get 4)))
             (c_kwargs (call_of (projects_get 4)))) <> None ->
        log = []).
Proof.
  apply (authorization_follows_api_key Sample.loads Sample.str_exc Requests.plain
           (Some "k-123") default_base_url 30 3 (projects_get 4) (Sample.always 503 "")).
  - reflexivity.
  - reflexivity.
  - intros i. reflexivity.
Defined.

Lemma projects_create_witness :
  dict_get "name"
    (payload (call_of (projects_create "demo" None
                         [("template", VStr "python"); ("visibility", VNone)])))
  = Some (VStr "demo")
  /\ forall k v,
       In (k, v) [("template", VStr "python"); ("visibility", VNone)] ->
       dict_get k
         (payload (call_of (projects_create "demo" None
                              [("template", VStr "python"); ("visibility", VNone)])))
       = Some v.
Proof.
  apply (projects_create_sends_name_and_every_kwarg "demo" None
           [("template", VStr "python"); ("visibility", VNone)]).
  - intros k Hk. simpl in Hk. destruct Hk as [<-|[<-|[]]]; reflexivity.
  - simpl. repeat constructor; simpl; intros H;
      repeat match goal with
             | H : _ \/ _ |- _ => destruct H
             | H : _ ∈ _ |- _ => apply list_elem_of_In in H; simpl in H
             end; try discriminate; try done.
Defined.

Lemma delete_returns_none_witness :
  resource_call_in SampleData.validate SampleData.loads Sample.str_exc Requests.plain
    (__init__ None default_base_url 30 3) (users_delete 7)
    (Sample.redirects_then PermanentRedirect308 "http://localhost:4000/api/v2/users/7"
       (mkResponse 204 "" None))
  = Some (OpReturns (RValue VNone),
          [Sent (outgoing (__init__ None default_base_url 30 3) DELETE "/users/7" no_kwargs);
           Sent (Requests.redirected Requests.plain
                   (outgoing (__init__ None default_base_url 30 3) DELETE "/users/7"
                      no_kwargs)
                   PermanentRedirect308 "http://localhost:4000/api/v2/users/7")]).
Proof.
  apply (delete_returns_none SampleData.validate SampleData.loads Sample.str_exc
           Requests.plain (__init__ None default_base_url 30 3) (users_delete 7)
           (Sample.redirects_then PermanentRedirect308
              "http://localhost:4000/api/v2/users/7" (mkResponse 204 "" None))
           (mkResponse 204 "" None)).
  - reflexivity.
  - reflexivity.
  - simpl. lia.
  - left. reflexivity.
Defined.

Lemma empty_success_body_type_error_witness :
  resource_call_in SampleData.validate SampleData.loads Sample.str_exc Requests.plain
    (__init__ None default_base_url 30 3) (projects_deploy 7) (Sample.always 204 "")
  = Some (OpFails TypeError,
          [Sent (outgoing (__init__ None default_base_url 30 3) POST "/projects/7/deploy"
                   no_kwargs)]).
Proof.
  apply (empty_success_body_is_a_type_error SampleData.validate SampleData.loads
           Sample.str_exc Requests.plain (__init__ None default_base_url 30 3)
           (projects_deploy 7) (Sample.always 204 "") (mkResponse 204 "" None)).
  - discriminate.
  - reflexivity.
  - simpl. lia.
  - reflexivity.
Defined.

Lemma data_methods_witness :
  exists log,
    resource_call SampleData.validate SampleData.loads Sample.str_exc
      (__init__ None default_base_url 30 3) resources_limits
      (Sample.always 200 SampleData.envelope_text)
    = Some (match dict_get "data" SampleData.envelope with
            | Some x => OpReturns (RValue x)
            | None => OpFails (KeyError "data")
            end, log).
Proof.
  apply (data_methods_return_the_data_member SampleData.validate SampleData.loads
           Sample.str_exc None default_base_url 30 3 resources_limits
           (Sample.always 200 SampleData.envelope_text) 0
           (mkResponse 200 SampleData.envelope_text None) SampleData.envelope).
  - reflexivity.
  - lia.
  - intros i Hi. lia.
  - reflexivity.
  - simpl. lia.
  - discriminate.
  - reflexivity.
Defined.

Lemma model_methods_witness :
  exists log,
    resource_call SampleData.validate SampleData.loads Sample.str_exc
      (__init__ None default_base_url 30 3) (users_get 1)
      (Sample.always 200 SampleData.envelope_text)
    = Some (match SampleData.validate User [("id", VInt 1)] with
            | Some inst => OpReturns (RModel User inst)
            | None => OpFails (ValidationError User)
            end, log).
Proof.
  apply (model_methods_build_from_the_data_member SampleData.validate SampleData.loads
           Sample.str_exc None default_base_url 30 3 (users_get 1)
           (Sample.always 200 SampleData.envelope_text) 0
           (mkResponse 200 SampleData.envelope_text None) SampleData.envelope
           [("id", VInt 1)] User).
  - reflexivity.
  - lia.
  - intros i Hi. lia.
  - reflexivity.
  - simpl. lia.
  - discriminate.
  - reflexivity.
  - reflexivity.
Defined.

Lemma list_methods_witness :
  exists log,
    resource_call SampleData.validate SampleData.loads Sample.str_exc
      (__init__ None default_base_url 30 3) (users_list 1 20 None)
      (Sample.always 200 SampleData.listing_text)
    = Some (match dict_get "pagination" SampleData.listing with
            | Some p => OpReturns (RListing "users" User [[("id", VInt 1)]] p)
            | None => OpFails (KeyError "pagination")
            end, log).
Proof.
  apply (list_methods_need_data_and_pagination SampleData.validate SampleData.loads
           Sample.str_exc None default_base_url 30 3 (users_list 1 20 None)
           (Sample.always 200 SampleData.listing_text) 0
           (mkResponse 200 SampleData.listing_text None) SampleData.listing
           "users" User [VDict [("id", VInt 1)]] [[("id", VInt 1)]]).
  - reflexivity.
  - lia.
  - intros i Hi. lia.
  - reflexivity.
  - simpl. lia.
  - discriminate.
  - reflexivity.
  - reflexivity.
  - constructor; [|constructor]. exists [("id", VInt 1)]. split; reflexivity.
Defined.

Example run_users_list :
  option_map fst
    (resource_call SampleData.validate SampleData.loads Sample.str_exc
       (__init__ None default_base_url 30 3) (users_list 1 20 None)
       (Sample.always 200 SampleData.listing_text))
  = Some (OpReturns (RListing "users" User [[("id", VInt 1)]] (VDict [("page", VInt 1)]))).
Proof. reflexivity. Qed.

Example run_users_get_no_content :
  option_map fst
    (resource_call SampleData.validate SampleData.loads Sample.str_exc
       (__init__ None default_base_url 30 3) (users_get 1) (Sample.always 204 ""))
  = Some (OpFails TypeError).
Proof. reflexivity. Qed.

Example run_retry_after :
  summary (_request Sample.loads Sample.str_exc (__init__ None default_base_url 30 3)
             GET "/projects" no_kwargs (fun _ => Received (mkResponse 413 "" (Some 5%Z))))
  = Some (Raises (mkExc AlgoAPIError "API error: 413" (Some 413%Z) VNone), 4, []).
Proof. reflexivity. Qed.

Lemma never_rate_limited_witness :
  exc_class (mkExc AlgoAPIError "Request failed: too many error responses" None VNone)
  <> AlgoRateLimitError.
Proof.
  apply (request_never_rate_limited Sample.loads Sample.str_exc None default_base_url 30 0
           GET "/projects" no_kwargs (Sample.always 429 rate_limited_body)
           (mkExc AlgoAPIError "Request failed: too many error responses" None VNone)
           [Sent (outgoing (__init__ None default_base_url 30 0) GET "/projects" no_kwargs)]).
  reflexivity.
Defined.
